(** * Multi-Model-AI-System: [archives/multimodel_ollama.py]

    A shallow embedding of the model lifecycle manager ([OllamaManager]) and
    of the pipeline driver ([MultiModelCrew]) of the Python source, with the
    properties of the natural-language specification stated over it.

    The program talks to four external collaborators: the [requests] HTTP
    client, [subprocess.run], the [LLM] constructor of CrewAI and CrewAI's
    task execution.  Each is an oracle of a [World]; every call appends an
    [Event] carrying its arguments and its outcome to the trace of the
    state, and the oracle is asked at the current time (the length of the
    trace), so a world may answer the same request differently at different
    moments.  Python exceptions are values of [PyExc] carried by [Raise];
    the state reached when an exception is raised is kept, as in Python.

    Console output ([print]) is not modelled.  [PyExc] stands for instances
    of Python's [Exception]; asynchronous signals of the interpreter
    ([KeyboardInterrupt], [SystemExit]) are outside the model. *)

From Stdlib Require Import ZArith QArith String Ascii List Bool Lia.
From stdpp Require Import base option list strings gmap.
Import ListNotations.
Local Open Scope string_scope.
Local Open Scope Z_scope.

(** ** Python exceptions *)

Inductive ExcClass :=
  | RequestException          (* requests.exceptions.RequestException and subclasses *)
  | TimeoutExpired            (* subprocess.TimeoutExpired *)
  | KeyError
  | TypeError
  | AttributeError
  | OtherException (name : string).

Record PyExc := mkExc { exc_class : ExcClass; exc_str : string }.

Definition is_RequestException (e : PyExc) : bool :=
  match exc_class e with RequestException => true | _ => false end.

Definition is_TimeoutExpired (e : PyExc) : bool :=
  match exc_class e with TimeoutExpired => true | _ => false end.

(** Every modelled exception derives from [Exception]. *)
Definition is_Exception (e : PyExc) : bool := true.

Inductive Res (A : Type) :=
  | Val (a : A)
  | Raise (e : PyExc).
Arguments Val {A} a.
Arguments Raise {A} e.

(** ** JSON values, as [response.json()] hands them to Python *)

#[local] Unset Elimination Schemes.
Inductive Json :=
  | JNull
  | JBool (b : bool)
  | JNum (z : Z)
  | JStr (s : string)
  | JArr (l : list Json)
  | JObj (kv : list (string * Json)).
#[local] Set Elimination Schemes.

Fixpoint assoc_lookup {V} (k : string) (kv : list (string * V)) : option V :=
  match kv with
  | [] => None
  | (k', v) :: kv' => if String.eqb k k' then Some v else assoc_lookup k kv'
  end.

Definition dq : string := String "034"%char EmptyString.
Definition sq : string := String "039"%char EmptyString.
Definition nl : string := String "010"%char EmptyString.

(** [repr] of a key in a [KeyError] message. *)
Definition py_repr (s : string) : string := sq +:+ s +:+ sq.

(** [j.get(key, dflt)]: only a [dict] has [get]. *)
Definition py_get (j : Json) (key : string) (dflt : Json) : Res Json :=
  match j with
  | JObj kv => Val (default dflt (assoc_lookup key kv))
  | _ => Raise (mkExc AttributeError "object has no attribute 'get'")
  end.

(** [for x in j]: a list yields its items, a dict its keys, a string its
    characters; nothing else is iterable. *)
Definition py_iter (j : Json) : Res (list Json) :=
  match j with
  | JArr l => Val l
  | JObj kv => Val (map (fun p => JStr (fst p)) kv)
  | JStr s => Val (map (fun c => JStr (String c EmptyString)) (list_ascii_of_string s))
  | _ => Raise (mkExc TypeError "object is not iterable")
  end.

(** [j[key]] with a string key: only a dict can be subscripted by a string. *)
Definition py_getitem (j : Json) (key : string) : Res Json :=
  match j with
  | JObj kv =>
      match assoc_lookup key kv with
      | Some v => Val v
      | None => Raise (mkExc KeyError (py_repr key))
      end
  | JArr _ | JStr _ => Raise (mkExc TypeError "indices must be integers")
  | _ => Raise (mkExc TypeError "object is not subscriptable")
  end.

(** [sub in s] on two Python strings: [sub] occurs in [s] as a contiguous
    block. *)
Fixpoint str_in (sub s : string) : bool :=
  String.prefix sub s ||
  match s with
  | EmptyString => false
  | String _ s' => str_in sub s'
  end.

Definition is_JStr (name : string) (j : Json) : bool :=
  match j with JStr s => String.eqb name s | _ => false end.

(** [name in j] for a string [name]: substring test on a string, element
    test on a list, key test on a dict, [TypeError] on anything else. *)
Definition py_in (name : string) (j : Json) : Res bool :=
  match j with
  | JStr s => Val (str_in name s)
  | JArr l => Val (existsb (is_JStr name) l)
  | JObj kv => Val (existsb (fun p => String.eqb name (fst p)) kv)
  | _ => Raise (mkExc TypeError "argument is not iterable")
  end.

(** [any(name in model for model in models)]: stops at the first hit, and
    an exception of a membership test passes through. *)
Fixpoint py_any_in (name : string) (models : list Json) : Res bool :=
  match models with
  | [] => Val false
  | model :: rest =>
      match py_in name model with
      | Val true => Val true
      | Val false => py_any_in name rest
      | Raise e => Raise e
      end
  end.

(** [[model['name'] for model in models]] *)
Fixpoint py_names (models : list Json) : Res (list Json) :=
  match models with
  | [] => Val []
  | model :: rest =>
      match py_getitem model "name" with
      | Val n =>
          match py_names rest with
          | Val ns => Val (n :: ns)
          | Raise e => Raise e
          end
      | Raise e => Raise e
      end
  end.

(** ** The data of the program *)

Inductive ModelStrength := ANALYTICAL | EXECUTION | REASONING.

Definition ModelStrength_value (s : ModelStrength) : string :=
  match s with
  | ANALYTICAL => "analytical_thinking"
  | EXECUTION => "efficient_processing"
  | REASONING => "advanced_reasoning"
  end.

Record ModelConfig := mkModelConfig {
  name : string;
  ollama_model : string;
  strength : ModelStrength;
  role : string;
  description : string;
  temperature : Q;
  context_window : Z
}.

Record OllamaManager := mkOllamaManager {
  base_url : string;
  api_url : string
}.

(** [OllamaManager.__init__] *)
Definition OllamaManager_init (base : string) : OllamaManager :=
  {| base_url := base; api_url := base +:+ "/api" |}.

Definition default_base_url : string := "http://localhost:11434".

(** The keyword arguments of [LLM(...)]; the handle is the record. *)
Record LLM := mkLLM {
  llm_model : string;
  llm_base_url : string;
  llm_temperature : Q;
  llm_max_tokens : Z;
  llm_top_p : Q;
  llm_frequency_penalty : Q;
  llm_presence_penalty : Q
}.

Inductive Tool := BraveSearchTool | ScrapeWebsiteTool.

(** Python objects built by a run carry their identity ([obj_id]), handed
    out by the allocator of the state; a task names its context tasks by
    identity, as the Python list holds references. *)
Record Agent := mkAgent {
  agent_id : nat;
  agent_role : string;
  agent_goal : string;
  agent_backstory : string;
  agent_llm : LLM;
  agent_tools : list Tool;
  agent_verbose : bool;
  agent_allow_delegation : bool
}.

Record Task := mkTask {
  task_id : nat;
  task_description : string;
  task_expected_output : string;
  task_agent : Agent;
  task_context : option (list nat)
}.

Inductive Process := sequential | hierarchical.

Record Embedder := mkEmbedder {
  emb_provider : string;
  emb_model : string;
  emb_base_url : string
}.

Record Crew := mkCrew {
  crew_id : nat;
  crew_agents : list Agent;
  crew_tasks : list Task;
  crew_process : Process;
  crew_verbose : bool;
  crew_memory : bool;
  crew_max_rpm : Z;
  crew_embedder : Embedder
}.

(** The fields of a [MultiModelCrew] instance.  [models_config] is a Python
    dict iterated in insertion order, hence an association list. *)
Record MultiModelCrew := mkMultiModelCrew {
  ollama_manager : OllamaManager;
  models_config : list (string * ModelConfig);
  llms : gmap string LLM;
  agents : gmap string Agent;
  knowledge_base : gmap string string;
  search_tool : Tool;
  scrape_tool : Tool
}.

(** ** The outside world *)

Inductive JsonOutcome :=
  | JsonValue (j : Json)
  | JsonRaises (e : PyExc).

Record Response := mkResponse {
  status_code : Z;
  json : JsonOutcome
}.

(** [requests.get] returns a response, or raises a [RequestException]
    (connection refused, timeout, ...), or lets through an exception of a
    class of another library, which is no [RequestException] (urllib3's
    [LocationParseError] on an address it cannot parse). *)
Inductive HttpOutcome :=
  | HttpResponse (r : Response)
  | HttpRaises (msg : string)
  | HttpRaisesOther (cls msg : string).

Record CompletedProcess := mkCompletedProcess {
  returncode : Z;
  stdout : string;
  stderr : string
}.

Inductive ProcOutcome :=
  | ProcCompleted (r : CompletedProcess)
  | ProcRaises (e : PyExc).

(** What an agent is handed for one task: the task's texts after the
    interpolation of the kickoff inputs, and the outputs of its context. *)
Record TaskInput := mkTaskInput {
  in_description : string;
  in_expected_output : string;
  in_context : list string
}.

Inductive ExecOutcome :=
  | ExecOutput (raw : string)
  | ExecRaises (e : PyExc).

Record World := mkWorld {
  requests_get : nat -> string -> option Z -> HttpOutcome;
  subprocess_run : nat -> list string -> bool -> bool -> Z -> ProcOutcome;
  LLM_new : nat -> LLM -> option PyExc;
  execute_task : nat -> Agent -> TaskInput -> ExecOutcome
}.

Inductive Event :=
  | EvHttpGet (url : string) (timeout : option Z) (out : HttpOutcome)
  | EvSubprocessRun (argv : list string) (capture_output text : bool)
      (timeout : Z) (out : ProcOutcome)
  | EvLLMNew (args : LLM) (out : option PyExc)
  | EvKickoff (crew : Crew) (inputs : list (string * string))
  | EvExecuteTask (agent : Agent) (input : TaskInput) (out : ExecOutcome).

Record State := mkState {
  trace : list Event;
  next_id : nat;
  crew_system : MultiModelCrew
}.

(** ** The monad of Python code: state and exceptions *)

Definition M (A : Type) : Type := State -> Res A * State.

Definition ret {A} (a : A) : M A := fun st => (Val a, st).

Definition bind {A B} (m : M A) (k : A -> M B) : M B :=
  fun st =>
    match m st with
    | (Val a, st') => k a st'
    | (Raise e, st') => (Raise e, st')
    end.

Definition raise {A} (e : PyExc) : M A := fun st => (Raise e, st).

Definition lift {A} (r : Res A) : M A := fun st => (r, st).

(** [try: body except C1: h1 except C2: h2 ...]: the first clause whose
    class the exception belongs to handles it, in the state the body left;
    an exception of no clause passes through. *)
Fixpoint select_clause {A} (clauses : list ((PyExc -> bool) * (PyExc -> M A)))
    (e : PyExc) : option (M A) :=
  match clauses with
  | [] => None
  | (cls, handler) :: rest =>
      if cls e then Some (handler e) else select_clause rest e
  end.

Definition try_except {A} (body : M A)
    (clauses : list ((PyExc -> bool) * (PyExc -> M A))) : M A :=
  fun st =>
    match body st with
    | (Val a, st') => (Val a, st')
    | (Raise e, st') =>
        match select_clause clauses e with
        | Some h => h st'
        | None => (Raise e, st')
        end
    end.

Declare Scope py_scope.
Delimit Scope py_scope with py.
Notation "x <- m ;; k" := (bind m (fun x => k))
  (at level 100, m at next level, right associativity) : py_scope.
Notation "m ;;; k" := (bind m (fun _ => k))
  (at level 100, right associativity) : py_scope.
Local Open Scope py_scope.

(** The state after one more event. *)
Definition push (ev : Event) (st : State) : State :=
  {| trace := trace st ++ [ev]; next_id := next_id st;
     crew_system := crew_system st |}.

Definition log (ev : Event) : M unit := fun st => (Val tt, push ev st).

Definition now : M nat := fun st => (Val (length (trace st)), st).

(** A new Python object: a fresh identity. *)
Definition alloc : M nat :=
  fun st => (Val (next_id st), {| trace := trace st; next_id := S (next_id st);
                                  crew_system := crew_system st |}).

Definition get_self : M MultiModelCrew := fun st => (Val (crew_system st), st).

Definition set_llms (m : gmap string LLM) : M unit :=
  fun st =>
    let c := crew_system st in
    (Val tt, {| trace := trace st; next_id := next_id st;
                crew_system := {| ollama_manager := ollama_manager c;
                                  models_config := models_config c;
                                  llms := m;
                                  agents := agents c;
                                  knowledge_base := knowledge_base c;
                                  search_tool := search_tool c;
                                  scrape_tool := scrape_tool c |} |}).

(** [d[key]] on the [llms] dict. *)
Definition dict_getitem (d : gmap string LLM) (key : string) : M LLM :=
  match d !! key with
  | Some v => ret v
  | None => raise (mkExc KeyError (py_repr key))
  end.

(** ** CrewAI: interpolation of the kickoff inputs

    [kickoff(inputs=...)] first interpolates the inputs into the
    description and the expected output of every task, then into the role,
    the goal and the backstory of every agent, before any task runs.  A
    text without braces is kept as it is.  Otherwise its placeholders are
    the matches of [{name}], where [name] starts with a letter or an
    underscore and goes on with letters, digits, underscores and hyphens;
    a placeholder without a value in the inputs is an error, and else each
    placeholder is replaced by its value with [str.replace]. *)

Definition is_name_start (c : ascii) : bool :=
  let n := nat_of_ascii c in
  ((65 <=? n)%nat && (n <=? 90)%nat)
  || ((97 <=? n)%nat && (n <=? 122)%nat)
  || (n =? 95)%nat.

Definition is_name_char (c : ascii) : bool :=
  let n := nat_of_ascii c in
  is_name_start c || ((48 <=? n)%nat && (n <=? 57)%nat) || (n =? 45)%nat.

(** The names of the placeholders of a text, from left to right; [cur] is
    the name read so far since the last opening brace, if one is open. *)
Fixpoint placeholders_from (cur : option string) (s : string) : list string :=
  match s with
  | EmptyString => []
  | String c s' =>
      if Ascii.eqb c "{" then placeholders_from (Some EmptyString) s'
      else
        match cur with
        | None => placeholders_from None s'
        | Some name =>
            if Ascii.eqb c "}" then
              match name with
              | EmptyString => placeholders_from None s'
              | _ => name :: placeholders_from None s'
              end
            else if match name with
                    | EmptyString => is_name_start c
                    | _ => is_name_char c
                    end
            then placeholders_from (Some (name +:+ String c EmptyString)) s'
            else placeholders_from None s'
        end
  end.

Fixpoint has_brace (s : string) : bool :=
  match s with
  | EmptyString => false
  | String c s' => Ascii.eqb c "{" || Ascii.eqb c "}" || has_brace s'
  end.

(** [s.replace(pat, val)] for a non-empty [pat]: the occurrences of [pat]
    from left to right, without overlap; [skip] counts the characters of
    an occurrence still to pass. *)
Fixpoint replace_from (pat val : string) (skip : nat) (s : string) : string :=
  match s with
  | EmptyString => EmptyString
  | String c s' =>
      match skip with
      | S k => replace_from pat val k s'
      | O =>
          if String.prefix pat s
          then val +:+ replace_from pat val (String.length pat - 1) s'
          else String c (replace_from pat val 0 s')
      end
  end.

Inductive Interpolated :=
  | Interpolated_ok (s : string)
  | Missing_variable (var : string)      (* KeyError *)
  | Empty_inputs.                        (* ValueError *)

(** [interpolate_only(input_string, inputs)] *)
Definition interpolate_only (inputs : list (string * string)) (s : string)
    : Interpolated :=
  if negb (has_brace s) then Interpolated_ok s
  else
    match inputs with
    | [] => Empty_inputs
    | _ =>
        let variables := placeholders_from None s in
        match List.find (fun v => negb (existsb (String.eqb v) (map fst inputs)))
                        variables with
        | Some v => Missing_variable v
        | None =>
            Interpolated_ok
              (fold_left
                 (fun result v =>
                    replace_from ("{" +:+ v +:+ "}")
                                 (default EmptyString (assoc_lookup v inputs)) 0 result)
                 variables s)
        end
    end.

Definition missing_variable_message (var : string) : string :=
  "Template variable '" +:+ var +:+ "' not found in inputs dictionary".

Definition empty_inputs_message : string :=
  "Inputs dictionary cannot be empty when interpolating variables".

Definition ValueError (msg : string) : PyExc :=
  mkExc (OtherException "ValueError") msg.

(** The description of a task: a missing variable and empty inputs are
    raised again as [ValueError]s. *)
Definition interpolate_description (inputs : list (string * string)) (s : string)
    : Res string :=
  match interpolate_only inputs s with
  | Interpolated_ok s' => Val s'
  | Missing_variable var =>
      Raise (ValueError ("Missing required template variable '"
                         +:+ missing_variable_message var +:+ "' in description"))
  | Empty_inputs =>
      Raise (ValueError ("Error interpolating description: " +:+ empty_inputs_message))
  end.

(** The expected output of a task; [str] of a [KeyError] is the [repr] of
    its message. *)
Definition interpolate_expected_output (inputs : list (string * string))
    (s : string) : Res string :=
  match interpolate_only inputs s with
  | Interpolated_ok s' => Val s'
  | Missing_variable var =>
      Raise (ValueError ("Error interpolating expected_output: "
                         +:+ dq +:+ missing_variable_message var +:+ dq))
  | Empty_inputs =>
      Raise (ValueError ("Error interpolating expected_output: "
                         +:+ empty_inputs_message))
  end.

(** A text of an agent: the errors are not wrapped. *)
Definition interpolate_agent_text (inputs : list (string * string)) (s : string)
    : Res string :=
  match interpolate_only inputs s with
  | Interpolated_ok s' => Val s'
  | Missing_variable var =>
      Raise (mkExc KeyError (dq +:+ missing_variable_message var +:+ dq))
  | Empty_inputs => Raise (ValueError empty_inputs_message)
  end.

Definition res_bind {A B} (r : Res A) (k : A -> Res B) : Res B :=
  match r with
  | Val a => k a
  | Raise e => Raise e
  end.

(** [task.interpolate_inputs_and_add_conversation_history(inputs)]: nothing
    is done for empty inputs. *)
Definition interpolate_task (inputs : list (string * string)) (t : Task) : Res Task :=
  match inputs with
  | [] => Val t
  | _ =>
      res_bind (interpolate_description inputs (task_description t)) (fun d =>
      res_bind (interpolate_expected_output inputs (task_expected_output t)) (fun x =>
      Val {| task_id := task_id t;
             task_description := d;
             task_expected_output := x;
             task_agent := task_agent t;
             task_context := task_context t |}))
  end.

(** [agent.interpolate_inputs(inputs)] *)
Definition interpolate_agent (inputs : list (string * string)) (a : Agent) : Res Agent :=
  match inputs with
  | [] => Val a
  | _ =>
      res_bind (interpolate_agent_text inputs (agent_role a)) (fun r =>
      res_bind (interpolate_agent_text inputs (agent_goal a)) (fun g =>
      res_bind (interpolate_agent_text inputs (agent_backstory a)) (fun b =>
      Val {| agent_id := agent_id a;
             agent_role := r;
             agent_goal := g;
             agent_backstory := b;
             agent_llm := agent_llm a;
             agent_tools := agent_tools a;
             agent_verbose := agent_verbose a;
             agent_allow_delegation := agent_allow_delegation a |})))
  end.

Fixpoint res_map {A B} (f : A -> Res B) (l : list A) : Res (list B) :=
  match l with
  | [] => Val []
  | a :: l' => res_bind (f a) (fun b => res_bind (res_map f l') (fun bs => Val (b :: bs)))
  end.

(** [crew._interpolate_inputs(inputs)]: the tasks, then the agents. *)
Definition interpolate_crew (inputs : list (string * string)) (crew : Crew)
    : Res (list Agent * list Task) :=
  res_bind (res_map (interpolate_task inputs) (crew_tasks crew)) (fun tasks =>
  res_bind (res_map (interpolate_agent inputs) (crew_agents crew)) (fun agents =>
  Val (agents, tasks))).

(** The agent of a task is an object of the crew's list of agents, which
    the interpolation has updated: it is found there by its identity. *)
Definition agent_of (agents : list Agent) (a : Agent) : Agent :=
  default a (List.find (fun x => Nat.eqb (agent_id x) (agent_id a)) agents).

(** The outputs a task is given as context: those of the tasks it declares,
    or, when it declares none, of every task run before it. *)
Definition context_outputs (done : list (nat * string)) (ctx : option (list nat))
    : list string :=
  match ctx with
  | None => map snd done
  | Some ids =>
      omap (fun i => snd <$> List.find (fun d => Nat.eqb (fst d) i) done) ids
  end.

Definition task_input (done : list (nat * string)) (t : Task) : TaskInput :=
  {| in_description := task_description t;
     in_expected_output := task_expected_output t;
     in_context := context_outputs done (task_context t) |}.

Definition nonempty (s : string) : bool :=
  match s with EmptyString => false | _ => true end.

(** The result of the crew: the last output that is not empty. *)
Definition crew_output (outputs : list string) : Res string :=
  match outputs with
  | [] => Raise (ValueError "No task outputs available to create crew output.")
  | _ =>
      match last (List.filter nonempty outputs) with
      | Some raw => Val raw
      | None =>
          Raise (ValueError "No valid task outputs available to create crew output.")
      end
  end.

(** ** The texts of the agents and tasks of [solve_problem] *)

Definition analyst_role : string :=
  "Problem Analyst and Strategist".

Definition analyst_goal : string :=
  "First, analyze a problem to determine if it can be solved with " +:+
  "internal logical reasoning or if it requires internet research. " +:+
  "Then, create a precise plan that consist of either search or " +:+
  "reasoning for the next agent to follow. Do not search over the " +:+
  "internet, your job is to decide if the next agent needs to search " +:+
  "the internet or not, along with a to-do list.".

Definition analyst_backstory : string :=
  "You are a master strategist. Your first step is always to determine " +:+
  "the nature of the problem: does it require new information, or can " +:+
  "it be solved with logic and existing knowledge? Based on this, you " +:+
  "produce a clear, actionable plan that explicitly states whether to " +:+
  "search the web or to use reasoning. You never execute the plan " +:+
  "yourself; you only create it.".

Definition researcher_role : string :=
  "Conditional Information Processor".

Definition researcher_goal : string :=
  "Execute a plan from the Problem Analyst. You will either perform " +:+
  "internet research or use your internal knowledge based *only* on " +:+
  "the instructions in the plan. IF YOU PERFORM A SEARCH AND SCRAPE A " +:+
  "WEBSITE, YOU MUST SUMMARIZE OR EXTRACT ONLY THE MOST RELEVANT " +:+
  "INFORMATION FROM THE SCRAPED CONTENT THAT DIRECTLY ANSWERS THE " +:+
  "ORIGINAL PROBLEM OR PLAN QUERY. DO NOT PASS RAW, UNPROCESSED LARGE " +:+
  "TEXT BLOCKS TO THE NEXT AGENT. Your final output should be a " +:+
  "concise, relevant report.".

Definition researcher_backstory : string :=
  "You are a hyper-efficient, silent processor. You follow plans with " +:+
  "precision. If a plan requires reasoning, you provide a detailed " +:+
  "report. If the plan requires a search, you perform the search, " +:+
  "scrape the most relevant URL, AND THEN CRITICALLY, you process the " +:+
  "scraped data by summarizing or extracting only the key points " +:+
  "relevant to the original query, significantly reducing its size " +:+
  "before passing it on. You understand that passing extremely large " +:+
  "raw text blocks will cause failures.".

Definition synthesizer_role : string :=
  "Solution Synthesizer".

Definition synthesizer_goal : string :=
  "Methodically review the gathered information from the researcher " +:+
  "and compile a final, comprehensive answer.".

Definition synthesizer_backstory : string :=
  "You are a focused writer. You DO NOT perform research. You receive " +:+
  "a research report and your only job is to format it into a final, " +:+
  "comprehensive answer that directly addresses the original user's " +:+
  "question.".

Definition analysis_task_description (problem : string) : string :=
  "Analyze the following problem: '" +:+ problem +:+ "'." +:+ nl +:+
  "                    First, decide if this problem requires an " +:+
  "internet search to acquire new information or if it can be solved " +:+
  "with logical reasoning alone." +:+ nl +:+
  "                    Based on your decision, generate a plan." +:+ nl +:+
  "                    If an internet search is required, begin your " +:+
  "output with the single word " +:+ dq +:+ "SEARCH" +:+ dq +:+
  " on the first line, followed by a numbered list of 2-4 specific " +:+
  "search queries." +:+ nl +:+
  "                    If no search is required, begin your output " +:+
  "with the single word " +:+ dq +:+ "REASON" +:+ dq +:+
  " on the first line, followed by a logical outline of steps to " +:+
  "reason through the problem.".

Definition analysis_task_expected_output : string :=
  "A plan that starts with either " +:+ dq +:+ "SEARCH" +:+ dq +:+ " or " +:+
  dq +:+ "REASON" +:+ dq +:+ " on the first line." +:+ nl +:+
  "                    If the first line is " +:+ dq +:+ "SEARCH" +:+ dq +:+
  ", it is followed by a numbered list of actionable search queries." +:+
  nl +:+ "                    If the first line is " +:+ dq +:+ "REASON" +:+
  dq +:+
  ", it is followed by a conceptual outline for solving the problem " +:+
  "using logic.".

Definition research_task_description : string :=
  "Read the plan provided by the Problem Analyst." +:+ nl +:+
  "                                    - If the plan says " +:+ dq +:+
  "SEARCH" +:+ dq +:+
  ", perform the search. Then, take the most relevant URL from the " +:+
  "search results and use the scrape tool to read its content." +:+ nl +:+
  "                                    ***CRITICAL STEP***: AFTER " +:+
  "SCRAPING THE CONTENT, YOU MUST PROCESS IT. Summarize or extract " +:+
  "only the most relevant information from the scraped webpage that " +:+
  "directly addresses the original problem or the specific search " +:+
  "query from the plan. DO NOT include the entire scraped text in your " +:+
  "final output. The goal is to drastically reduce the amount of text " +:+
  "passed to the next agent." +:+ nl +:+
  "                                    - If the plan says " +:+ dq +:+
  "REASON" +:+ dq +:+ ", use your internal knowledge to answer." +:+ nl +:+
  "                                    Your final output should be the " +:+
  "processed, concise information you gathered, whether from the " +:+
  "summarized scraped content or internal knowledge.".

Definition research_task_expected_output : string :=
  "A detailed but CONCISE report of the information gathered. If data " +:+
  "was scraped, this report MUST be a significantly summarized or " +:+
  "extracted version of the scraped content, focusing only on the most " +:+
  "relevant parts. This processed report will be passed to the " +:+
  "synthesizer.".

Definition synthesis_task_description : string :=
  "You have been given a report by the 'Conditional Information " +:+
  "Processor'. Your task is to compile this information into a final, " +:+
  "well-structured answer." +:+ nl +:+
  "                    Do not add new information or deviate from the " +:+
  "provided report." +:+ nl +:+
  "                    Base your entire final answer on the results " +:+
  "from the report.".

Definition synthesis_task_expected_output : string :=
  "A comprehensive, well-structured final answer that is the direct " +:+
  "result of the research or reasoning. The answer must directly " +:+
  "address the original problem.".

(** [MultiModelCrew._setup_model_configurations] *)
Definition _setup_model_configurations : list (string * ModelConfig) :=
  [ ("analyst",
     {| name := "Qwen Analyst";
        ollama_model := "qwen3:1.7b";
        strength := ANALYTICAL;
        role := "Problem Analyst";
        description := "analytical thinking, problem decomposition, creating a ToDo list";
        temperature := 3 # 10;
        context_window := 32768 |});
    ("researcher",
     {| name := "DeepSeek Researcher";
        ollama_model := "deepseek-r1:8b";
        strength := REASONING;
        role := "Information Researcher";
        description := "Accessing the internet and local files to gather information.";
        temperature := 6 # 10;
        context_window := 128000 |});
    ("synthesizer",
     {| name := "Gemma3 Synthesizer";
        ollama_model := "gemma3:1b";
        strength := EXECUTION;
        role := "Solution Synthesizer";
        description := "Synthesizes information into a final answer based on research.";
        temperature := 6 # 10;
        context_window := 32768 |}) ].

(** [MultiModelCrew.__init__] *)
Definition MultiModelCrew_init : MultiModelCrew :=
  {| ollama_manager := OllamaManager_init default_base_url;
     models_config := _setup_model_configurations;
     llms := ∅;
     agents := ∅;
     knowledge_base := ∅;
     search_tool := BraveSearchTool;
     scrape_tool := ScrapeWebsiteTool |}.

Definition initial_state : State :=
  {| trace := []; next_id := 0; crew_system := MultiModelCrew_init |}.

(** ** The program *)

Section Program.

Variable w : World.

(** *** Calls to the outside *)

Definition http_get (url : string) (timeout : option Z) : M Response :=
  t <- now ;;
  let out := requests_get w t url timeout in
  log (EvHttpGet url timeout out) ;;;
  match out with
  | HttpResponse r => ret r
  | HttpRaises msg => raise (mkExc RequestException msg)
  | HttpRaisesOther cls msg => raise (mkExc (OtherException cls) msg)
  end.

Definition response_json (r : Response) : M Json :=
  match json r with
  | JsonValue j => ret j
  | JsonRaises e => raise e
  end.

Definition run_subprocess (argv : list string) (capture_output text : bool)
    (timeout : Z) : M CompletedProcess :=
  t <- now ;;
  let out := subprocess_run w t argv capture_output text timeout in
  log (EvSubprocessRun argv capture_output text timeout out) ;;;
  match out with
  | ProcCompleted r => ret r
  | ProcRaises e => raise e
  end.

Definition new_LLM (args : LLM) : M LLM :=
  t <- now ;;
  let out := LLM_new w t args in
  log (EvLLMNew args out) ;;;
  match out with
  | None => ret args
  | Some e => raise e
  end.

Definition agent_execute (a : Agent) (input : TaskInput) : M string :=
  t <- now ;;
  let out := execute_task w t a input in
  log (EvExecuteTask a input out) ;;;
  match out with
  | ExecOutput raw => ret raw
  | ExecRaises e => raise e
  end.

(** *** CrewAI: the sequential process

    Tasks run one after the other in the order of the list; each is given
    its input once the tasks before it have produced their outputs; the
    result of the crew is the last output that is not empty. *)

Fixpoint run_sequential (agents : list Agent) (tasks : list Task)
    (done : list (nat * string)) : M string :=
  match tasks with
  | [] => lift (crew_output (map snd done))
  | t :: rest =>
      out <- agent_execute (agent_of agents (task_agent t)) (task_input done t) ;;
      run_sequential agents rest (done ++ [(task_id t, out)])
  end.

(** [crew.kickoff(inputs=...)], then [str] of its result: the inputs are
    interpolated, then the tasks run.  The hierarchical process needs a
    manager, which the crews built here do not have; CrewAI rejects it. *)
Definition kickoff (crew : Crew) (inputs : list (string * string)) : M string :=
  log (EvKickoff crew inputs) ;;;
  match crew_process crew with
  | sequential =>
      ready <- lift (interpolate_crew inputs crew) ;;
      run_sequential (fst ready) (snd ready) []
  | hierarchical =>
      raise (mkExc (OtherException "ValidationError")
                   "manager_llm or manager_agent is required")
  end.

(** *** [OllamaManager] *)

Definition check_ollama_status (self : OllamaManager) : M bool :=
  try_except
    (response <- http_get (base_url self +:+ "/api/tags") (Some 5) ;;
     ret (status_code response =? 200))
    [ (is_RequestException, fun _ => ret false) ].

Definition list_available_models (self : OllamaManager) : M (list Json) :=
  try_except
    (response <- http_get (api_url self +:+ "/tags") None ;;
     if status_code response =? 200 then
       j <- response_json response ;;
       models <- lift (py_get j "models" (JArr [])) ;;
       items <- lift (py_iter models) ;;
       lift (py_names items)
     else ret [])
    [ (is_RequestException, fun _ => ret []) ].

Definition check_model_availability (self : OllamaManager) (model_name : string)
    : M bool :=
  available_models <- list_available_models self ;;
  lift (py_any_in model_name available_models).

Definition pull_model_if_needed (self : OllamaManager) (model_name : string)
    : M bool :=
  available <- check_model_availability self model_name ;;
  if available then ret true
  else
    try_except
      (result <- run_subprocess ["ollama"; "pull"; model_name] true true 1800 ;;
       if returncode result =? 0 then ret true else ret false)
      [ (is_TimeoutExpired, fun _ => ret false);
        (is_Exception, fun _ => ret false) ].

(** *** [MultiModelCrew] *)

(** The [for config in self.models_config.values()] loop of
    [initialize_system], with its flag [models_ready]. *)
Fixpoint download_required_models (configs : list ModelConfig)
    (models_ready : bool) : M bool :=
  match configs with
  | [] => ret models_ready
  | config :: rest =>
      self <- get_self ;;
      ok <- pull_model_if_needed (ollama_manager self) (ollama_model config) ;;
      download_required_models rest (if negb ok then false else models_ready)
  end.

(** The [for key, config in self.models_config.items()] loop of
    [_setup_llm_connections]. *)
Fixpoint connect_models (items : list (string * ModelConfig)) : M unit :=
  match items with
  | [] => ret tt
  | (key, config) :: rest =>
      try_except
        (llm <- new_LLM {| llm_model := "ollama/" +:+ ollama_model config;
                           llm_base_url := "http://localhost:11434";
                           llm_temperature := temperature config;
                           llm_max_tokens := 4096;
                           llm_top_p := 9 # 10;
                           llm_frequency_penalty := 0;
                           llm_presence_penalty := 0 |} ;;
         self <- get_self ;;
         set_llms (<[key := llm]> (llms self)))
        [ (is_Exception, fun e => raise e) ] ;;;
      connect_models rest
  end.

Definition _setup_llm_connections : M unit :=
  self <- get_self ;;
  connect_models (models_config self).

Definition initialize_system : M bool :=
  self <- get_self ;;
  status <- check_ollama_status (ollama_manager self) ;;
  if negb status then ret false
  else
    self <- get_self ;;
    models_ready <- download_required_models (map snd (models_config self)) true ;;
    if negb models_ready then ret false
    else
      _setup_llm_connections ;;;
      ret true.

Definition solve_problem (problem : string) : M string :=
  (* --- Create Agents --- *)
  self <- get_self ;;
  llm <- dict_getitem (llms self) "analyst" ;;
  i <- alloc ;;
  let analyst :=
    {| agent_id := i; agent_role := analyst_role; agent_goal := analyst_goal;
       agent_backstory := analyst_backstory; agent_llm := llm;
       agent_tools := []; agent_verbose := true;
       agent_allow_delegation := false |} in
  self <- get_self ;;
  llm <- dict_getitem (llms self) "researcher" ;;
  i <- alloc ;;
  let researcher :=
    {| agent_id := i; agent_role := researcher_role;
       agent_goal := researcher_goal;
       agent_backstory := researcher_backstory; agent_llm := llm;
       agent_tools := [search_tool self; scrape_tool self];
       agent_verbose := true; agent_allow_delegation := false |} in
  self <- get_self ;;
  llm <- dict_getitem (llms self) "synthesizer" ;;
  i <- alloc ;;
  let synthesizer :=
    {| agent_id := i; agent_role := synthesizer_role;
       agent_goal := synthesizer_goal;
       agent_backstory := synthesizer_backstory; agent_llm := llm;
       agent_tools := []; agent_verbose := true;
       agent_allow_delegation := false |} in
  (* --- Create Tasks for this specific run --- *)
  i <- alloc ;;
  let analysis_task :=
    {| task_id := i; task_description := analysis_task_description problem;
       task_expected_output := analysis_task_expected_output;
       task_agent := analyst; task_context := None |} in
  i <- alloc ;;
  let research_task :=
    {| task_id := i; task_description := research_task_description;
       task_expected_output := research_task_expected_output;
       task_agent := researcher;
       task_context := Some [task_id analysis_task] |} in
  i <- alloc ;;
  let synthesis_task :=
    {| task_id := i; task_description := synthesis_task_description;
       task_expected_output := synthesis_task_expected_output;
       task_agent := synthesizer;
       task_context := Some [task_id research_task] |} in
  (* --- Create and configure the crew with the fresh components --- *)
  i <- alloc ;;
  let crew :=
    {| crew_id := i;
       crew_agents := [analyst; researcher; synthesizer];
       crew_tasks := [analysis_task; research_task; synthesis_task];
       crew_process := sequential;
       crew_verbose := true;
       crew_memory := false;
       crew_max_rpm := 30;
       crew_embedder := {| emb_provider := "ollama";
                           emb_model := "nomic-embed-text";
                           emb_base_url := "http://localhost:11434" |} |} in
  (* Execute the crew workflow *)
  try_except
    (result <- kickoff crew [("problem", problem)] ;;
     ret result)
    [ (is_Exception, fun e => ret ("Error: " +:+ exc_str e)) ].

End Program.

(** ** Vocabulary of the statements *)

(** The events a computation adds to the trace when run from [st]. *)
Definition run_events {A} (m : M A) (st : State) : list Event :=
  drop (length (trace st)) (trace (snd (m st))).

Definition returns {A} (r : Res A) : Prop :=
  match r with Val _ => True | Raise _ => False end.

(** [pull_model_if_needed] invoked on every name of a list, in order, with
    the results collected: what a provisioning loop that skips no model
    does. *)
Fixpoint pull_every (w : World) (mgr : OllamaManager) (names : list string)
    : M (list bool) :=
  match names with
  | [] => ret []
  | n :: rest =>
      ok <- pull_model_if_needed w mgr n ;;
      oks <- pull_every w mgr rest ;;
      ret (ok :: oks)
  end.

(** The state after several more events. *)
Definition push_all (evs : list Event) (st : State) : State :=
  {| trace := trace st ++ evs; next_id := next_id st;
     crew_system := crew_system st |}.

Definition is_EvLLMNew (ev : Event) : bool :=
  match ev with EvLLMNew _ _ => true | _ => false end.

(** No [LLM(...)] was constructed: no connection was set up. *)
Definition no_connection (evs : list Event) : bool :=
  forallb (fun ev => negb (is_EvLLMNew ev)) evs.

(** The backend model identifiers of a configuration, in its order. *)
Definition configured_models (self : MultiModelCrew) : list string :=
  map ollama_model (map snd (models_config self)).

(** The JSON body of [GET /api/tags] for a catalog of model names. *)
Definition catalog_json (names : list string) : Json :=
  JObj [("models", JArr (map (fun n => JObj [("name", JStr n)]) names))].

Definition ok_response (names : list string) : HttpOutcome :=
  HttpResponse {| status_code := 200; json := JsonValue (catalog_json names) |}.

Definition the_manager : OllamaManager := OllamaManager_init default_base_url.

(** The argument vectors of the downloads among some events. *)
Definition downloads (evs : list Event) : list (list string) :=
  omap (fun ev => match ev with
                  | EvSubprocessRun argv _ _ _ _ => Some argv
                  | _ => None
                  end) evs.

(** The state after [k] objects were allocated. *)
Definition after_allocs (k : nat) (st : State) : State :=
  {| trace := trace st; next_id := k + next_id st;
     crew_system := crew_system st |}.

(** The crew [solve_problem] hands to [kickoff], when its first object gets
    the identity [n] and the three connections are [la], [lr] and [ls]. *)
Definition crew_of_run (self : MultiModelCrew) (n : nat) (problem : string)
    (la lr ls : LLM) : Crew :=
  let analyst :=
    {| agent_id := n; agent_role := analyst_role; agent_goal := analyst_goal;
       agent_backstory := analyst_backstory; agent_llm := la;
       agent_tools := []; agent_verbose := true;
       agent_allow_delegation := false |} in
  let researcher :=
    {| agent_id := 1 + n; agent_role := researcher_role;
       agent_goal := researcher_goal;
       agent_backstory := researcher_backstory; agent_llm := lr;
       agent_tools := [search_tool self; scrape_tool self];
       agent_verbose := true; agent_allow_delegation := false |} in
  let synthesizer :=
    {| agent_id := 2 + n; agent_role := synthesizer_role;
       agent_goal := synthesizer_goal;
       agent_backstory := synthesizer_backstory; agent_llm := ls;
       agent_tools := []; agent_verbose := true;
       agent_allow_delegation := false |} in
  {| crew_id := 6 + n;
     crew_agents := [analyst; researcher; synthesizer];
     crew_tasks :=
       [ {| task_id := 3 + n;
            task_description := analysis_task_description problem;
            task_expected_output := analysis_task_expected_output;
            task_agent := analyst; task_context := None |};
         {| task_id := 4 + n;
            task_description := research_task_description;
            task_expected_output := research_task_expected_output;
            task_agent := researcher; task_context := Some [3 + n]%nat |};
         {| task_id := 5 + n;
            task_description := synthesis_task_description;
            task_expected_output := synthesis_task_expected_output;
            task_agent := synthesizer; task_context := Some [4 + n]%nat |} ];
     crew_process := sequential;
     crew_verbose := true;
     crew_memory := false;
     crew_max_rpm := 30;
     crew_embedder := {| emb_provider := "ollama";
                         emb_model := "nomic-embed-text";
                         emb_base_url := "http://localhost:11434" |} |}.

(** The identities of the objects of a crew. *)
Definition object_ids (crew : Crew) : list nat :=
  crew_id crew :: (map agent_id (crew_agents crew) ++ map task_id (crew_tasks crew))%list.

(** What a stage is handed: the texts of its agent and the input of its
    task. *)
Record StageInput := mkStageInput {
  stage_role : string;
  stage_goal : string;
  stage_backstory : string;
  stage_task : TaskInput
}.

(** What the synthesis stage was handed, and the reports the research
    stage produced, among some events; a stage is known by the role of its
    agent. *)
Definition synthesis_inputs (evs : list Event) : list StageInput :=
  omap (fun ev => match ev with
                  | EvExecuteTask a input _ =>
                      if String.eqb (agent_role a) synthesizer_role
                      then Some {| stage_role := agent_role a;
                                   stage_goal := agent_goal a;
                                   stage_backstory := agent_backstory a;
                                   stage_task := input |}
                      else None
                  | _ => None
                  end) evs.

Definition research_reports (evs : list Event) : list string :=
  omap (fun ev => match ev with
                  | EvExecuteTask a _ (ExecOutput report) =>
                      if String.eqb (agent_role a) researcher_role
                      then Some report else None
                  | _ => None
                  end) evs.

(** The synthesis stage's input for a report: the fixed texts of the
    synthesizer and of its task, and the report as the only context. *)
Definition synthesis_input_of (report : string) : StageInput :=
  {| stage_role := synthesizer_role;
     stage_goal := synthesizer_goal;
     stage_backstory := synthesizer_backstory;
     stage_task :=
       {| in_description := synthesis_task_description;
          in_expected_output := synthesis_task_expected_output;
          in_context := [report] |} |}.

(** Stage events in pipeline order: the stages are run by the agents of the
    given roles, one after the other; a stage is handed [prev], the output
    of the stage before it, and the next stage appears only once this one
    has produced its output; a stage that raises ends the run. *)
Fixpoint chained (roles : list string) (prev : list string) (evs : list Event)
    : Prop :=
  match roles, evs with
  | [], [] => True
  | r :: roles', EvExecuteTask a input out :: evs' =>
      agent_role a = r /\ in_context input = prev /\
      match out with
      | ExecOutput o => chained roles' [o] evs'
      | ExecRaises _ => evs' = []
      end
  | _, _ => False
  end.

Definition stage_roles : list string :=
  [analyst_role; researcher_role; synthesizer_role].

(** The research stage's input for a plan: the fixed texts of the
    researcher and of its task, and the plan as the only context. *)
Definition research_input_of (plan : string) : StageInput :=
  {| stage_role := researcher_role;
     stage_goal := researcher_goal;
     stage_backstory := researcher_backstory;
     stage_task :=
       {| in_description := research_task_description;
          in_expected_output := research_task_expected_output;
          in_context := [plan] |} |}.

(** The agents and tasks of the crew of [crew_of_run], by name. *)
Definition analyst_of (n : nat) (la : LLM) : Agent :=
  {| agent_id := n; agent_role := analyst_role; agent_goal := analyst_goal;
     agent_backstory := analyst_backstory; agent_llm := la;
     agent_tools := []; agent_verbose := true;
     agent_allow_delegation := false |}.

Definition researcher_of (self : MultiModelCrew) (n : nat) (lr : LLM) : Agent :=
  {| agent_id := 1 + n; agent_role := researcher_role;
     agent_goal := researcher_goal;
     agent_backstory := researcher_backstory; agent_llm := lr;
     agent_tools := [search_tool self; scrape_tool self];
     agent_verbose := true; agent_allow_delegation := false |}.

Definition synthesizer_of (n : nat) (ls : LLM) : Agent :=
  {| agent_id := 2 + n; agent_role := synthesizer_role;
     agent_goal := synthesizer_goal;
     agent_backstory := synthesizer_backstory; agent_llm := ls;
     agent_tools := []; agent_verbose := true;
     agent_allow_delegation := false |}.

Definition analysis_task_of (n : nat) (la : LLM) (d : string) : Task :=
  {| task_id := 3 + n; task_description := d;
     task_expected_output := analysis_task_expected_output;
     task_agent := analyst_of n la; task_context := None |}.

Definition research_task_of (self : MultiModelCrew) (n : nat) (lr : LLM) : Task :=
  {| task_id := 4 + n; task_description := research_task_description;
     task_expected_output := research_task_expected_output;
     task_agent := researcher_of self n lr;
     task_context := Some [3 + n]%nat |}.

Definition synthesis_task_of (n : nat) (ls : LLM) : Task :=
  {| task_id := 5 + n; task_description := synthesis_task_description;
     task_expected_output := synthesis_task_expected_output;
     task_agent := synthesizer_of n ls;
     task_context := Some [4 + n]%nat |}.

(** The description of the analysis task once the kickoff inputs are
    interpolated: the problem was pasted into it when the task was built,
    and its braces are read as placeholders. *)
Definition analysis_description (problem : string) : Res string :=
  interpolate_description [("problem", problem)] (analysis_task_description problem).

(** What the analysis stage is handed for a description. *)
Definition analysis_input (d : string) : TaskInput :=
  {| in_description := d;
     in_expected_output := analysis_task_expected_output;
     in_context := [] |}.

(** The string [solve_problem] returns when the tasks have given these
    outputs: the result of the crew, or the error text of its failure. *)
Definition answer_of (outputs : list string) : string :=
  match crew_output outputs with
  | Val raw => raw
  | Raise e => "Error: " +:+ exc_str e
  end.

(** The runs of the pipeline for three agents and a problem: the stage
    events and the string [solve_problem] returns.  The interpolation of
    the inputs fails before any stage; or a stage raises, which ends the
    run; or the three stages give their outputs. *)
Inductive pipeline_run (analyst researcher synthesizer : Agent) (problem : string)
    : list Event -> string -> Prop :=
  | run_interpolation_raised e :
      analysis_description problem = Raise e ->
      pipeline_run analyst researcher synthesizer problem
        [] ("Error: " +:+ exc_str e)
  | run_analysis_raised d e :
      analysis_description problem = Val d ->
      pipeline_run analyst researcher synthesizer problem
        [EvExecuteTask analyst (analysis_input d) (ExecRaises e)]
        ("Error: " +:+ exc_str e)
  | run_research_raised d plan e :
      analysis_description problem = Val d ->
      pipeline_run analyst researcher synthesizer problem
        [EvExecuteTask analyst (analysis_input d) (ExecOutput plan);
         EvExecuteTask researcher (stage_task (research_input_of plan)) (ExecRaises e)]
        ("Error: " +:+ exc_str e)
  | run_synthesis_raised d plan report e :
      analysis_description problem = Val d ->
      pipeline_run analyst researcher synthesizer problem
        [EvExecuteTask analyst (analysis_input d) (ExecOutput plan);
         EvExecuteTask researcher (stage_task (research_input_of plan)) (ExecOutput report);
         EvExecuteTask synthesizer (stage_task (synthesis_input_of report)) (ExecRaises e)]
        ("Error: " +:+ exc_str e)
  | run_completed d plan report answer :
      analysis_description problem = Val d ->
      pipeline_run analyst researcher synthesizer problem
        [EvExecuteTask analyst (analysis_input d) (ExecOutput plan);
         EvExecuteTask researcher (stage_task (research_input_of plan)) (ExecOutput report);
         EvExecuteTask synthesizer (stage_task (synthesis_input_of report)) (ExecOutput answer)]
        (answer_of [plan; report; answer]).

(** The three roles have their connection in [llms]. *)
Definition connected (self : MultiModelCrew) : Prop :=
  is_Some (llms self !! "analyst")
  /\ is_Some (llms self !! "researcher")
  /\ is_Some (llms self !! "synthesizer").

(** ** Vocabulary of the further properties *)

(** A catalog entry that is an object with the given value under
    ['name']. *)
Definition named (model name : Json) : Prop :=
  exists fields, model = JObj fields /\ assoc_lookup "name" fields = Some name.

Definition is_object (model : Json) : Prop := exists fields, model = JObj fields.

(** A catalog entry that is an object without ['name']. *)
Definition lacks_name (model : Json) : Prop :=
  exists fields, model = JObj fields /\ assoc_lookup "name" fields = None.

(** The command line of a download. *)
Definition pull_argv (model_name : string) : list string :=
  ["ollama"; "pull"; model_name].

(** The connection [_setup_llm_connections] asks for a configuration. *)
Definition llm_of (config : ModelConfig) : LLM :=
  {| llm_model := "ollama/" +:+ ollama_model config;
     llm_base_url := "http://localhost:11434";
     llm_temperature := temperature config;
     llm_max_tokens := 4096;
     llm_top_p := 9 # 10;
     llm_frequency_penalty := 0;
     llm_presence_penalty := 0 |}.

(** A registry after the connections of some items were stored in it, one
    after the other. *)
Definition register (items : list (string * ModelConfig)) (m : gmap string LLM)
    : gmap string LLM :=
  fold_left (fun acc kv => <[fst kv := llm_of (snd kv)]> acc) items m.

(** The events of the successful connections of some items. *)
Definition connection_events (items : list (string * ModelConfig)) : list Event :=
  map (fun kv => EvLLMNew (llm_of (snd kv)) None) items.

(** An instance with another registry and its other fields kept. *)
Definition with_llms (m : gmap string LLM) (c : MultiModelCrew) : MultiModelCrew :=
  {| ollama_manager := ollama_manager c;
     models_config := models_config c;
     llms := m;
     agents := agents c;
     knowledge_base := knowledge_base c;
     search_tool := search_tool c;
     scrape_tool := scrape_tool c |}.

(** [c'] is [c] but for its registry. *)
Definition same_but_llms (c c' : MultiModelCrew) : Prop :=
  c' = with_llms (llms c') c.

(** The state after some events and with another registry. *)
Definition connected_state (evs : list Event) (m : gmap string LLM) (st : State)
    : State :=
  {| trace := trace st ++ evs; next_id := next_id st;
     crew_system := with_llms m (crew_system st) |}.

(** [solve_problem] called on each problem of a list, one call after the
    other, with the answers collected. *)
Fixpoint solve_each (w : World) (problems : list string) : M (list string) :=
  match problems with
  | [] => ret []
  | problem :: rest =>
      answer <- solve_problem w problem ;;
      answers <- solve_each w rest ;;
      ret (answer :: answers)
  end.

(** What the research stage was handed, and the plans the analysis stage
    produced, among some events. *)
Definition research_inputs (evs : list Event) : list StageInput :=
  omap (fun ev => match ev with
                  | EvExecuteTask a input _ =>
                      if String.eqb (agent_role a) researcher_role
                      then Some {| stage_role := agent_role a;
                                   stage_goal := agent_goal a;
                                   stage_backstory := agent_backstory a;
                                   stage_task := input |}
                      else None
                  | _ => None
                  end) evs.

Definition analysis_plans (evs : list Event) : list string :=
  omap (fun ev => match ev with
                  | EvExecuteTask a _ (ExecOutput plan) =>
                      if String.eqb (agent_role a) analyst_role
                      then Some plan else None
                  | _ => None
                  end) evs.

(** The events of the pipeline: the kickoff and the stages. *)
Definition is_pipeline_event (ev : Event) : bool :=
  match ev with
  | EvKickoff _ _ | EvExecuteTask _ _ _ => true
  | _ => false
  end.

(** ** Worlds used as examples *)

(** The backend answers with the given catalog; [ollama pull] ends with the
    return code [rc name]; connections and agents always succeed. *)
Definition world_with (names : list string) (rc : string -> Z) : World :=
  {| requests_get := fun _ _ _ => ok_response names;
     subprocess_run := fun _ argv _ _ _ =>
       ProcCompleted {| returncode := rc (List.last argv EmptyString);
                        stdout := EmptyString;
                        stderr := "pull failed" |};
     LLM_new := fun _ _ => None;
     execute_task := fun _ _ _ => ExecOutput "4" |}.

(** Nothing is installed and every download exits with code 1. *)
Definition world_download_fails : World := world_with [] (fun _ => 1).

(** Nothing is installed and only the download of the first model fails. *)
Definition world_first_download_fails : World :=
  world_with [] (fun n => if String.eqb n "qwen3:1.7b" then 1 else 0).

(** The backend is not running. *)
Definition world_unreachable : World :=
  {| requests_get := fun _ _ _ => HttpRaises "Connection refused";
     subprocess_run := fun _ _ _ _ _ =>
       ProcRaises (mkExc (OtherException "FileNotFoundError") "ollama");
     LLM_new := fun _ _ => None;
     execute_task := fun _ _ _ => ExecOutput "4" |}.

Definition all_models : list string :=
  ["qwen3:1.7b"; "deepseek-r1:8b"; "gemma3:1b"].

(** Everything is installed and connects; the three stages answer as
    given. *)
Definition stage_world (analysis research synthesis : ExecOutcome) : World :=
  {| requests_get := fun _ _ _ => ok_response all_models;
     subprocess_run := fun _ _ _ _ _ =>
       ProcCompleted {| returncode := 0; stdout := EmptyString;
                        stderr := EmptyString |};
     LLM_new := fun _ _ => None;
     execute_task := fun _ a _ =>
       if String.eqb (agent_role a) analyst_role then analysis
       else if String.eqb (agent_role a) researcher_role then research
       else synthesis |}.

(** The state after a successful [initialize_system]. *)
Definition ready_state : State :=
  snd (initialize_system (world_with all_models (fun _ => 0)) initial_state).

Definition reason_plan : string := "REASON" +:+ nl +:+ "1. Add the numbers.".

Definition boom : PyExc := mkExc (OtherException "RuntimeError") "boom".

(** The backend answers the probe with status 500. *)
Definition world_unhealthy : World :=
  {| requests_get := fun _ _ _ =>
       HttpResponse {| status_code := 500; json := JsonValue JNull |};
     subprocess_run := fun _ _ _ _ _ => ProcRaises boom;
     LLM_new := fun _ _ => None;
     execute_task := fun _ _ _ => ExecOutput "4" |}.

(** The catalog has an entry without a name. *)
Definition world_malformed_catalog : World :=
  {| requests_get := fun _ _ _ =>
       HttpResponse {| status_code := 200;
                       json := JsonValue (JObj [("models", JArr [JObj []])]) |};
     subprocess_run := fun _ _ _ _ _ => ProcRaises boom;
     LLM_new := fun _ _ => None;
     execute_task := fun _ _ _ => ExecOutput "4" |}.

(** The backend answers every request with the given response. *)
Definition world_answering (r : Response) : World :=
  {| requests_get := fun _ _ _ => HttpResponse r;
     subprocess_run := fun _ _ _ _ _ =>
       ProcCompleted {| returncode := 0; stdout := EmptyString;
                        stderr := EmptyString |};
     LLM_new := fun _ _ => None;
     execute_task := fun _ _ _ => ExecOutput "4" |}.

(** A catalog as Ollama serves it, with more fields than the name. *)
Definition catalog_with_sizes : Json :=
  JObj [("models",
         JArr [JObj [("name", JStr "qwen3:1.7b"); ("size", JNum 1359293444)];
               JObj [("size", JNum 815319791); ("name", JStr "gemma3:1b")]])].

(** The body of the catalog response is not JSON, for a [requests] whose
    decoding error is a plain [ValueError]. *)
Definition world_bad_json : World :=
  world_answering
    {| status_code := 200;
       json := JsonRaises (mkExc (OtherException "ValueError")
                             "Expecting value: line 1 column 1 (char 0)") |}.

(** Everything is installed; the connection of the researcher's model is
    refused. *)
Definition connection_refused : PyExc :=
  mkExc (OtherException "ConnectionError") "connection refused".

Definition world_researcher_refused : World :=
  {| requests_get := fun _ _ _ => ok_response all_models;
     subprocess_run := fun _ _ _ _ _ =>
       ProcCompleted {| returncode := 0; stdout := EmptyString;
                        stderr := EmptyString |};
     LLM_new := fun _ args =>
       if String.eqb (llm_model args) "ollama/deepseek-r1:8b"
       then Some connection_refused else None;
     execute_task := fun _ _ _ => ExecOutput "4" |}.

(** Nothing is installed and every download exits with code 1; from the
    second catalog query on, the catalog has an entry without a name. *)
Definition world_catalog_breaks : World :=
  {| requests_get := fun t _ _ =>
       if (t <=? 1)%nat then ok_response []
       else HttpResponse
              {| status_code := 200;
                 json := JsonValue (JObj [("models", JArr [JObj []])]) |};
     subprocess_run := fun _ _ _ _ _ =>
       ProcCompleted {| returncode := 1; stdout := EmptyString;
                        stderr := "pull failed" |};
     LLM_new := fun _ _ => None;
     execute_task := fun _ _ _ => ExecOutput "4" |}.

(** An address that urllib3 cannot parse: [requests.get] lets its
    [LocationParseError], which is no [RequestException], through. *)
Definition bad_address : string := "http://.example.com".

Definition location_parse_error : HttpOutcome :=
  HttpRaisesOther "LocationParseError"
    "Failed to parse: '.example.com', label empty or too long".

Definition world_bad_address : World :=
  {| requests_get := fun _ url _ =>
       if String.prefix bad_address url then location_parse_error
       else ok_response all_models;
     subprocess_run := fun _ _ _ _ _ =>
       ProcCompleted {| returncode := 0; stdout := EmptyString;
                        stderr := EmptyString |};
     LLM_new := fun _ _ => None;
     execute_task := fun _ _ _ => ExecOutput "4" |}.

(** An instance whose manager was given that address. *)
Definition bad_address_state : State :=
  {| trace := []; next_id := 0;
     crew_system :=
       {| ollama_manager := OllamaManager_init bad_address;
          models_config := _setup_model_configurations;
          llms := ∅;
          agents := ∅;
          knowledge_base := ∅;
          search_tool := BraveSearchTool;
          scrape_tool := ScrapeWebsiteTool |} |}.

(** ** Laws of the monad and of the calls to the outside *)

Lemma bind_run {A B} (m : M A) (k : A -> M B) st :
  bind m k st =
  match m st with
  | (Val a, st') => k a st'
  | (Raise e, st') => (Raise e, st')
  end.
Proof. reflexivity. Qed.

Section Calls.

Variable w : World.

Lemma http_get_run url timeout st :
  http_get w url timeout st =
  let out := requests_get w (length (trace st)) url timeout in
  (match out with
   | HttpResponse r => Val r
   | HttpRaises msg => Raise (mkExc RequestException msg)
   | HttpRaisesOther cls msg => Raise (mkExc (OtherException cls) msg)
   end, push (EvHttpGet url timeout out) st).
Proof.
  unfold http_get, bind, now, log. cbn.
  destruct (requests_get w (length (trace st)) url timeout); reflexivity.
Qed.

Lemma run_subprocess_run argv co tx timeout st :
  run_subprocess w argv co tx timeout st =
  let out := subprocess_run w (length (trace st)) argv co tx timeout in
  (match out with
   | ProcCompleted r => Val r
   | ProcRaises e => Raise e
   end, push (EvSubprocessRun argv co tx timeout out) st).
Proof.
  unfold run_subprocess, bind, now, log. cbn.
  destruct (subprocess_run w (length (trace st)) argv co tx timeout); reflexivity.
Qed.

Lemma agent_execute_run a input st :
  agent_execute w a input st =
  let out := execute_task w (length (trace st)) a input in
  (match out with
   | ExecOutput raw => Val raw
   | ExecRaises e => Raise e
   end, push (EvExecuteTask a input out) st).
Proof.
  unfold agent_execute, bind, now, log. cbn.
  destruct (execute_task w (length (trace st)) a input); reflexivity.
Qed.

End Calls.

(** ** Substrings *)

Lemma append_cons c (s t : string) : String c s +:+ t = String c (s +:+ t).
Proof. reflexivity. Qed.

Lemma prefix_spec (sub s : string) :
  String.prefix sub s = true <-> exists post, s = sub +:+ post.
Proof.
  revert s. induction sub as [|a sub IH]; intros s.
  - split; [intros _; exists s; reflexivity | intros _; destruct s; reflexivity].
  - destruct s as [|b s]; cbn [String.prefix].
    + split; [discriminate | intros [post H]; rewrite append_cons in H; discriminate].
    + destruct (ascii_dec a b) as [->|Hne].
      * rewrite IH. split; intros [post H]; exists post;
          rewrite append_cons in *; congruence.
      * split; [discriminate | intros [post H]; rewrite append_cons in H; congruence].
Qed.

(** [str_in] is Python's substring test: [sub] occurs in [s] between some
    [pre] and some [post]. *)
Lemma str_in_spec (sub s : string) :
  str_in sub s = true <-> exists pre post, s = pre +:+ sub +:+ post.
Proof.
  induction s as [|c s IH]; cbn [str_in].
  - rewrite orb_false_r, prefix_spec. split.
    + intros [post H]. exists EmptyString, post. exact H.
    + intros [[|c pre] [post H]]; [eauto | rewrite append_cons in H; discriminate].
  - rewrite orb_true_iff, prefix_spec, IH. split.
    + intros [[post H] | (pre & post & H)].
      * exists EmptyString, post. exact H.
      * exists (String c pre), post. rewrite append_cons. congruence.
    + intros [[|c' pre] [post H]].
      * left. exists post. exact H.
      * right. exists pre, post. rewrite append_cons in H. congruence.
Qed.

(** ** [OllamaManager] *)

Lemma py_any_in_strings (name : string) (entries : list string) :
  py_any_in name (map JStr entries) = Val (existsb (str_in name) entries).
Proof.
  induction entries as [|entry entries IH]; [reflexivity|].
  cbn [map py_any_in py_in existsb].
  destruct (str_in name entry); [reflexivity | exact IH].
Qed.

Lemma existsb_str_in (name : string) (entries : list string) :
  existsb (str_in name) entries = true <->
  exists entry pre post, In entry entries /\ entry = pre +:+ name +:+ post.
Proof.
  rewrite existsb_exists. split.
  - intros (entry & Hin & H). apply str_in_spec in H as (pre & post & H). eauto.
  - intros (entry & pre & post & Hin & H). exists entry. split; [exact Hin|].
    apply str_in_spec. eauto.
Qed.

Section OllamaManagerFacts.

Variable w : World.

(** The liveness probe: one [GET /api/tags] with a timeout of 5 seconds;
    the answer is whether it came back with status 200, and an exception
    that is no [RequestException] passes through. *)
Lemma check_ollama_status_run self st :
  check_ollama_status w self st =
  let out := requests_get w (length (trace st)) (base_url self +:+ "/api/tags") (Some 5) in
  (match out with
   | HttpResponse r => Val (status_code r =? 200)
   | HttpRaises _ => Val false
   | HttpRaisesOther cls msg => Raise (mkExc (OtherException cls) msg)
   end,
   push (EvHttpGet (base_url self +:+ "/api/tags") (Some 5) out) st).
Proof.
  unfold check_ollama_status, try_except. rewrite bind_run, http_get_run.
  cbv zeta.
  destruct (requests_get w (length (trace st)) (base_url self +:+ "/api/tags") (Some 5));
    reflexivity.
Qed.

(** The catalog query leaves exactly one event, whatever it returns. *)
Lemma list_available_models_state self st :
  snd (list_available_models w self st) =
  push (EvHttpGet (api_url self +:+ "/tags") None
          (requests_get w (length (trace st)) (api_url self +:+ "/tags") None)) st.
Proof.
  unfold list_available_models, try_except. rewrite bind_run, http_get_run.
  cbv zeta.
  destruct (requests_get w (length (trace st)) (api_url self +:+ "/tags") None)
    as [r|msg|cls msg]; [|reflexivity|reflexivity].
  destruct (status_code r =? 200); [|reflexivity].
  unfold response_json, lift, bind, ret, raise.
  destruct (json r) as [j|e].
  - destruct (py_get j "models" (JArr [])) as [models|e]; cbn.
    + destruct (py_iter models) as [items|e]; cbn.
      * destruct (py_names items) as [ns|e]; cbn; [reflexivity|].
        destruct (is_RequestException e); reflexivity.
      * destruct (is_RequestException e); reflexivity.
    + destruct (is_RequestException e); reflexivity.
  - cbn. destruct (is_RequestException e); reflexivity.
Qed.

Lemma check_model_availability_run self model_name st :
  check_model_availability w self model_name st =
  match list_available_models w self st with
  | (Val available_models, st1) => (py_any_in model_name available_models, st1)
  | (Raise e, st1) => (Raise e, st1)
  end.
Proof. reflexivity. Qed.

Lemma check_model_availability_state self model_name st :
  snd (check_model_availability w self model_name st) =
  push (EvHttpGet (api_url self +:+ "/tags") None
          (requests_get w (length (trace st)) (api_url self +:+ "/tags") None)) st.
Proof.
  rewrite check_model_availability_run, <- list_available_models_state.
  destruct (list_available_models w self st) as [[l|e] st1]; reflexivity.
Qed.


(** C9. [check_ollama_status] returns true exactly when the probe comes
    back with status code 200; with any other status code, as with a
    network failure, it returns false. *)
Theorem check_ollama_status_true_iff_200 self st :
  let out := requests_get w (length (trace st)) (base_url self +:+ "/api/tags") (Some 5) in
  (fst (check_ollama_status w self st) = Val true <->
   exists r, out = HttpResponse r /\ status_code r = 200)
  /\ (fst (check_ollama_status w self st) = Val false <->
      (exists r, out = HttpResponse r /\ status_code r <> 200)
      \/ exists msg, out = HttpRaises msg).
Proof.
  cbv zeta. rewrite check_ollama_status_run. cbv zeta. cbn [fst].
  destruct (requests_get w (length (trace st)) (base_url self +:+ "/api/tags") (Some 5))
    as [r|msg|cls msg].
  - destruct (Z.eqb_spec (status_code r) 200) as [E|E]; split; split.
    + intros _. exists r. split; [reflexivity | exact E].
    + reflexivity.
    + discriminate.
    + intros [(r' & H & Hne) | (msg & H)]; [|discriminate].
      injection H as <-. contradiction.
    + discriminate.
    + intros (r' & H & E'). injection H as <-. contradiction.
    + intros _. left. exists r. split; [reflexivity | exact E].
    + reflexivity.
  - split; split.
    + discriminate.
    + intros (r & H & _). discriminate.
    + intros _. right. exists msg. reflexivity.
    + reflexivity.
  - split; split.
    + discriminate.
    + intros (r & H & _). discriminate.
    + discriminate.
    + intros [(r & H & _) | (msg' & H)]; discriminate.
Qed.

(** C2. When the catalog query returns the entries [entries],
    [check_model_availability] returns whether [model_name] is a substring
    of at least one of them: true exactly when some entry reads
    [pre ++ model_name ++ post]; in particular false on the empty
    catalog. *)
Theorem check_model_availability_substring self model_name st entries st1 :
  list_available_models w self st = (Val (map JStr entries), st1) ->
  check_model_availability w self model_name st =
    (Val (existsb (str_in model_name) entries), st1)
  /\ (existsb (str_in model_name) entries = true <->
      exists entry pre post,
        In entry entries /\ entry = pre +:+ model_name +:+ post).
Proof.
  intros H. rewrite check_model_availability_run, H, py_any_in_strings.
  split; [reflexivity | apply existsb_str_in].
Qed.

(** C1. [pull_model_if_needed] first asks [check_model_availability].  If
    that returns true, it returns true in the state the check left: no
    download was started.  If it returns false, [ollama pull] is run once
    with a timeout of 1800 seconds, and the result is true exactly when the
    process completes with return code 0; a timeout, any other exception
    and a non-zero return code give false, with no second attempt. *)
Theorem pull_model_if_needed_spec self model_name st :
  let st1 :=
    push (EvHttpGet (api_url self +:+ "/tags") None
            (requests_get w (length (trace st)) (api_url self +:+ "/tags") None)) st in
  let argv := ["ollama"; "pull"; model_name] in
  let out := subprocess_run w (length (trace st1)) argv true true 1800 in
  match fst (check_model_availability w self model_name st) with
  | Val true => pull_model_if_needed w self model_name st = (Val true, st1)
  | Val false =>
      pull_model_if_needed w self model_name st =
      (Val match out with
           | ProcCompleted r => returncode r =? 0
           | ProcRaises _ => false
           end,
       push (EvSubprocessRun argv true true 1800 out) st1)
  | Raise e => pull_model_if_needed w self model_name st = (Raise e, st1)
  end.
Proof.
  cbv zeta. rewrite <- (check_model_availability_state self model_name st).
  unfold pull_model_if_needed. rewrite bind_run.
  destruct (check_model_availability w self model_name st) as [[[|]|e] st1];
    cbn [fst snd]; try reflexivity.
  unfold try_except. rewrite bind_run, run_subprocess_run. cbv zeta.
  destruct (subprocess_run w (length (trace st1)) ["ollama"; "pull"; model_name]
              true true 1800) as [r|e].
  - destruct (returncode r =? 0); reflexivity.
  - cbn. destruct (is_TimeoutExpired e); reflexivity.
Qed.

End OllamaManagerFacts.

(** ** Frames: what a computation leaves of the state *)

Lemma push_all_nil st : push_all [] st = st.
Proof. destruct st. unfold push_all. cbn. by rewrite app_nil_r. Qed.

Lemma push_is_push_all ev st : push ev st = push_all [ev] st.
Proof. reflexivity. Qed.

Lemma push_all_app evs1 evs2 st :
  push_all evs2 (push_all evs1 st) = push_all (evs1 ++ evs2)%list st.
Proof. unfold push_all. cbn. by rewrite app_assoc. Qed.

Lemma no_connection_app evs1 evs2 :
  no_connection (evs1 ++ evs2)%list = no_connection evs1 && no_connection evs2.
Proof. apply forallb_app. Qed.

Section InitializeSystemFacts.

Variable w : World.

Lemma check_ollama_status_frame self st :
  exists evs, snd (check_ollama_status w self st) = push_all evs st
              /\ no_connection evs = true.
Proof. rewrite check_ollama_status_run. cbv zeta. eexists [_]. split; reflexivity. Qed.

Lemma pull_model_if_needed_frame self model_name st :
  exists evs, snd (pull_model_if_needed w self model_name st) = push_all evs st
              /\ no_connection evs = true.
Proof.
  unfold pull_model_if_needed. rewrite bind_run.
  pose proof (check_model_availability_state w self model_name st) as Hc.
  destruct (check_model_availability w self model_name st) as [[[|]|e] st1];
    cbn [snd] in Hc; subst st1.
  - eexists [_]. split; reflexivity.
  - unfold try_except. rewrite bind_run, run_subprocess_run. cbv zeta.
    match goal with |- context [push ?ev (push ?ev0 st)] =>
      exists [ev0; ev]; split; [|reflexivity];
      change (push ev (push ev0 st)) with (push_all [ev] (push_all [ev0] st));
      rewrite push_all_app
    end.
    match goal with |- context [subprocess_run ?a ?b ?c ?d ?e ?f] =>
      destruct (subprocess_run a b c d e f) as [r|e']
    end.
    + destruct (returncode r =? 0); reflexivity.
    + cbn. destruct (is_TimeoutExpired e'); reflexivity.
  - eexists [_]. split; reflexivity.
Qed.

Lemma pull_every_frame self names st :
  exists evs, snd (pull_every w self names st) = push_all evs st
              /\ no_connection evs = true.
Proof.
  revert st. induction names as [|n names IH]; intros st.
  - exists []. split; [symmetry; apply push_all_nil | reflexivity].
  - cbn [pull_every]. rewrite bind_run.
    destruct (pull_model_if_needed_frame self n st) as (evs1 & H1 & N1).
    destruct (pull_model_if_needed w self n st) as [[ok|e] st1]; cbn [snd] in H1.
    + rewrite bind_run. destruct (IH st1) as (evs2 & H2 & N2).
      exists (evs1 ++ evs2)%list.
      rewrite no_connection_app, N1, N2, <- push_all_app, <- H1.
      split; [|reflexivity].
      destruct (pull_every w self names st1) as [[oks|e] st2]; exact H2.
    + exists evs1. split; assumption.
Qed.

Lemma pull_model_if_needed_crew_system self model_name st :
  crew_system (snd (pull_model_if_needed w self model_name st)) = crew_system st.
Proof.
  destruct (pull_model_if_needed_frame self model_name st) as (evs & -> & _).
  reflexivity.
Qed.

(** The loop of [initialize_system] calls [pull_model_if_needed] for every
    configuration, whatever the earlier calls returned, and ends with the
    conjunction of the flag it started from and of all the results. *)
Lemma download_required_models_pull_every configs models_ready st :
  download_required_models w configs models_ready st =
  match pull_every w (ollama_manager (crew_system st)) (map ollama_model configs) st with
  | (Val oks, st') => (Val (models_ready && forallb id oks), st')
  | (Raise e, st') => (Raise e, st')
  end.
Proof.
  revert models_ready st.
  induction configs as [|config configs IH]; intros models_ready st.
  - cbn. by rewrite andb_true_r.
  - cbn [download_required_models map pull_every]. rewrite !bind_run.
    cbn [get_self]. rewrite !bind_run.
    pose proof (pull_model_if_needed_crew_system
                  (ollama_manager (crew_system st)) (ollama_model config) st) as Hc.
    destruct (pull_model_if_needed w (ollama_manager (crew_system st))
                (ollama_model config) st) as [[ok|e] st1]; [|reflexivity].
    cbn [snd] in Hc. rewrite IH, Hc, bind_run.
    destruct (pull_every w (ollama_manager (crew_system st))
                (map ollama_model configs) st1) as [[oks|e] st2]; [|reflexivity].
    cbn. destruct ok, models_ready; reflexivity.
Qed.

Lemma forallb_id_false (oks : list bool) :
  forallb id oks = false <-> In false oks.
Proof.
  induction oks as [|[|] oks IH]; cbn.
  - split; [discriminate | contradiction].
  - rewrite IH. split; [auto | intros [H|H]; [discriminate | exact H]].
  - split; auto.
Qed.

(** [initialize_system], phase by phase. *)
Lemma initialize_system_run st :
  initialize_system w st =
  let self := crew_system st in
  match check_ollama_status w (ollama_manager self) st with
  | (Val false, st1) => (Val false, st1)
  | (Val true, st1) =>
      match pull_every w (ollama_manager self) (configured_models self) st1 with
      | (Val oks, st2) =>
          if forallb id oks then
            match _setup_llm_connections w st2 with
            | (Val _, st3) => (Val true, st3)
            | (Raise e, st3) => (Raise e, st3)
            end
          else (Val false, st2)
      | (Raise e, st2) => (Raise e, st2)
      end
  | (Raise e, st1) => (Raise e, st1)
  end.
Proof.
  cbv zeta. unfold initialize_system. rewrite bind_run. cbn [get_self].
  rewrite bind_run.
  destruct (check_ollama_status_frame (ollama_manager (crew_system st)) st)
    as (evs & Hst & _).
  destruct (check_ollama_status w (ollama_manager (crew_system st)) st)
    as [[[|]|e] st1]; cbn [negb snd] in *; try reflexivity.
  rewrite bind_run. cbn [get_self]. rewrite bind_run.
  rewrite download_required_models_pull_every.
  unfold configured_models.
  replace (crew_system st1) with (crew_system st) by (rewrite Hst; reflexivity).
  destruct (pull_every w (ollama_manager (crew_system st))
              (map ollama_model (map snd (models_config (crew_system st)))) st1)
    as [[oks|e] st2]; [|reflexivity].
  cbn [andb]. destruct (forallb id oks); reflexivity.
Qed.

End InitializeSystemFacts.

(** ** [MultiModelCrew.initialize_system] *)

Section InitializeSystem.

Variable w : World.

Lemma pull_every_length self names st oks st' :
  pull_every w self names st = (Val oks, st') -> length oks = length names.
Proof.
  revert st oks st'. induction names as [|n names IH]; intros st oks st'.
  - cbn. intros [= <- _]. reflexivity.
  - cbn [pull_every]. rewrite bind_run.
    destruct (pull_model_if_needed w self n st) as [[ok|e] st1]; [|discriminate].
    rewrite bind_run.
    destruct (pull_every w self names st1) as [[oks1|e] st2] eqn:E; [|discriminate].
    cbn. intros [= <- _]. cbn. f_equal. eapply IH, E.
Qed.

(** C3, as the code has it.  [initialize_system] fails fast.  If the health
    check returns false, it returns false.  If the health check returns
    true and, of the provisioning calls, which all return, one returns
    false, it returns false.  If the health probe or a provisioning call
    raises, also after a model has failed to provision, the exception
    leaves [initialize_system].  In each of these cases the [llms] registry
    is what it was before the call (empty after [__init__]) and no [LLM]
    was constructed during the call: [_setup_llm_connections] was not
    reached. *)
Theorem initialize_system_fails_fast st :
  let self := crew_system st in
  let mgr := ollama_manager self in
  let st1 := snd (check_ollama_status w mgr st) in
  let untouched :=
    llms (crew_system (snd (initialize_system w st))) = llms self
    /\ no_connection (run_events (initialize_system w) st) = true in
  match fst (check_ollama_status w mgr st) with
  | Val false => fst (initialize_system w st) = Val false /\ untouched
  | Raise e => fst (initialize_system w st) = Raise e /\ untouched
  | Val true =>
      match fst (pull_every w mgr (configured_models self) st1) with
      | Val oks =>
          In false oks -> fst (initialize_system w st) = Val false /\ untouched
      | Raise e => fst (initialize_system w st) = Raise e /\ untouched
      end
  end.
Proof.
  cbv zeta. unfold run_events. rewrite initialize_system_run. cbv zeta.
  destruct (check_ollama_status_frame w (ollama_manager (crew_system st)) st)
    as (evs1 & H1 & N1).
  destruct (check_ollama_status w (ollama_manager (crew_system st)) st)
    as [[[|]|e] st1]; cbn [fst snd] in *.
  - destruct (pull_every_frame w (ollama_manager (crew_system st))
                (configured_models (crew_system st)) st1) as (evs2 & H2 & N2).
    destruct (pull_every w (ollama_manager (crew_system st))
                (configured_models (crew_system st)) st1) as [[oks|e] st2];
      cbn [fst snd] in *.
    + intros Hin. apply forallb_id_false in Hin. rewrite Hin.
      cbn [fst snd]. subst st2 st1. rewrite push_all_app.
      cbn [push_all trace crew_system].
      rewrite drop_app_length, no_connection_app, N1, N2. auto.
    + subst st2 st1. rewrite push_all_app. cbn [push_all trace crew_system].
      rewrite drop_app_length, no_connection_app, N1, N2. auto.
  - subst st1. cbn [push_all trace crew_system].
    rewrite drop_app_length. auto.
  - subst st1. cbn [push_all trace crew_system].
    rewrite drop_app_length. auto.
Qed.

(** C10, for a call whose health check passes.  When the health check has
    passed and [initialize_system] returns false, the state it returns in is the state
    reached by calling [pull_model_if_needed] on every configured model in
    order: each model got its call, also after one had failed, and there
    are as many results as configured models, one of them false. *)
Theorem initialize_system_attempts_every_model st :
  let self := crew_system st in
  let mgr := ollama_manager self in
  let st1 := snd (check_ollama_status w mgr st) in
  fst (check_ollama_status w mgr st) = Val true ->
  fst (initialize_system w st) = Val false ->
  exists oks,
    pull_every w mgr (configured_models self) st1
      = (Val oks, snd (initialize_system w st))
    /\ length oks = length (models_config self)
    /\ In false oks.
Proof.
  cbv zeta. rewrite initialize_system_run. cbv zeta.
  destruct (check_ollama_status w (ollama_manager (crew_system st)) st)
    as [[[|]|e] st1]; cbn [fst snd]; intros Hs; try discriminate.
  destruct (pull_every w (ollama_manager (crew_system st))
              (configured_models (crew_system st)) st1) as [[oks|e] st2] eqn:E;
    [|discriminate].
  destruct (forallb id oks) eqn:Hall.
  - destruct (_setup_llm_connections w st2) as [[[]|e] st3]; discriminate.
  - intros _. exists oks. cbn [snd]. split; [reflexivity|]. split.
    + apply pull_every_length in E. rewrite E. unfold configured_models.
      by rewrite !length_map.
    + by apply forallb_id_false.
Qed.

End InitializeSystem.

(** The end-to-end scenario of C3: nothing is installed and the downloads
    exit with code 1. *)
Lemma initialize_system_fails_fast_witness :
  fst (initialize_system world_download_fails initial_state) = Val false
  /\ llms (crew_system (snd (initialize_system world_download_fails initial_state))) = ∅
  /\ no_connection (run_events (initialize_system world_download_fails) initial_state) = true.
Proof.
  pose proof (initialize_system_fails_fast world_download_fails initial_state) as H.
  cbv zeta in H.
  change (fst (check_ollama_status world_download_fails
                 (ollama_manager (crew_system initial_state)) initial_state))
    with (@Val bool true) in H.
  cbv iota in H.
  change (fst (pull_every world_download_fails
                 (ollama_manager (crew_system initial_state))
                 (configured_models (crew_system initial_state))
                 (snd (check_ollama_status world_download_fails
                         (ollama_manager (crew_system initial_state)) initial_state))))
    with (Val [false; false; false]) in H.
  cbv iota in H. apply H. left. reflexivity.
Defined.

(** C3 does not extend to a provisioning that raises: the download of the
    first model exits with code 1, so this model fails to provision, and
    the catalog query for the second model comes back with an entry without
    a name; [initialize_system] does not return false, the [KeyError]
    leaves it. *)
Lemma initialize_system_raises_after_failed_download :
  fst (pull_model_if_needed world_catalog_breaks the_manager "qwen3:1.7b"
         (snd (check_ollama_status world_catalog_breaks the_manager initial_state)))
  = Val false
  /\ fst (initialize_system world_catalog_breaks initial_state)
     = Raise (mkExc KeyError "'name'").
Proof. split; vm_compute; reflexivity. Qed.

(** The download of the first model fails; the two other models are pulled
    all the same. *)
Lemma initialize_system_attempts_every_model_witness :
  exists oks,
    pull_every world_first_download_fails the_manager
      (configured_models MultiModelCrew_init)
      (snd (check_ollama_status world_first_download_fails the_manager initial_state))
      = (Val oks, snd (initialize_system world_first_download_fails initial_state))
    /\ length oks = 3%nat
    /\ In false oks.
Proof.
  apply (initialize_system_attempts_every_model world_first_download_fails initial_state);
    vm_compute; reflexivity.
Defined.

Example first_download_fails_all_pulled :
  fst (initialize_system world_first_download_fails initial_state) = Val false
  /\ downloads (run_events (initialize_system world_first_download_fails) initial_state)
     = [ ["ollama"; "pull"; "qwen3:1.7b"];
         ["ollama"; "pull"; "deepseek-r1:8b"];
         ["ollama"; "pull"; "gemma3:1b"] ].
Proof. split; vm_compute; reflexivity. Qed.

(** C10 does not extend to a failed health check: with the backend down,
    [initialize_system] returns false after the probe alone; no model was looked up or pulled, and the
    state is not the one that provisioning the three models leads to. *)
Lemma initialize_system_false_without_provisioning :
  fst (initialize_system world_unreachable initial_state) = Val false
  /\ run_events (initialize_system world_unreachable) initial_state
     = [EvHttpGet "http://localhost:11434/api/tags" (Some 5)
          (HttpRaises "Connection refused")]
  /\ forall oks,
       pull_every world_unreachable the_manager (configured_models MultiModelCrew_init)
         (snd (check_ollama_status world_unreachable the_manager initial_state))
       <> (Val oks, snd (initialize_system world_unreachable initial_state)).
Proof.
  split; [vm_compute; reflexivity|]. split; [vm_compute; reflexivity|].
  intros oks H. vm_compute in H. discriminate H.
Qed.

(** ** [MultiModelCrew.solve_problem] *)

(** A text without a brace is left as it is by the interpolation. *)
Lemma interpolate_only_plain inputs s :
  has_brace s = false -> interpolate_only inputs s = Interpolated_ok s.
Proof. intros H. unfold interpolate_only. by rewrite H. Qed.

Lemma interpolate_task_plain inputs t :
  has_brace (task_description t) = false ->
  has_brace (task_expected_output t) = false ->
  interpolate_task inputs t = Val t.
Proof.
  intros Hd He. destruct inputs as [|i inputs]; [reflexivity|].
  unfold interpolate_task, interpolate_description, interpolate_expected_output.
  rewrite (interpolate_only_plain _ _ Hd), (interpolate_only_plain _ _ He).
  by destruct t.
Qed.

Lemma interpolate_agent_plain inputs a :
  has_brace (agent_role a) = false ->
  has_brace (agent_goal a) = false ->
  has_brace (agent_backstory a) = false ->
  interpolate_agent inputs a = Val a.
Proof.
  intros Hr Hg Hb. destruct inputs as [|i inputs]; [reflexivity|].
  unfold interpolate_agent, interpolate_agent_text.
  rewrite (interpolate_only_plain _ _ Hr), (interpolate_only_plain _ _ Hg),
    (interpolate_only_plain _ _ Hb).
  by destruct a.
Qed.

(** The crew of a run, in terms of its named agents and tasks. *)
Lemma crew_of_run_parts self n problem la lr ls :
  crew_agents (crew_of_run self n problem la lr ls)
    = [analyst_of n la; researcher_of self n lr; synthesizer_of n ls]
  /\ crew_tasks (crew_of_run self n problem la lr ls)
    = [analysis_task_of n la (analysis_task_description problem);
       research_task_of self n lr; synthesis_task_of n ls]
  /\ crew_process (crew_of_run self n problem la lr ls) = sequential.
Proof. repeat split. Qed.

(** The texts of the agents and of the research and synthesis tasks hold no
    brace: of the kickoff inputs only the description of the analysis task
    can make the interpolation fail. *)
Lemma interpolate_crew_of_run self n problem la lr ls :
  interpolate_crew [("problem", problem)] (crew_of_run self n problem la lr ls) =
  match analysis_description problem with
  | Val d =>
      Val ([analyst_of n la; researcher_of self n lr; synthesizer_of n ls],
           [analysis_task_of n la d; research_task_of self n lr;
            synthesis_task_of n ls])
  | Raise e => Raise e
  end.
Proof.
  destruct (crew_of_run_parts self n problem la lr ls) as (Ha & Ht & _).
  unfold interpolate_crew. rewrite Ha, Ht. cbn [res_map].
  rewrite (interpolate_task_plain _ (research_task_of self n lr))
    by (vm_compute; reflexivity).
  rewrite (interpolate_task_plain _ (synthesis_task_of n ls))
    by (vm_compute; reflexivity).
  rewrite (interpolate_agent_plain _ (analyst_of n la))
    by (vm_compute; reflexivity).
  rewrite (interpolate_agent_plain _ (researcher_of self n lr))
    by (vm_compute; reflexivity).
  rewrite (interpolate_agent_plain _ (synthesizer_of n ls))
    by (vm_compute; reflexivity).
  unfold interpolate_task, analysis_description.
  cbn [task_description task_expected_output analysis_task_of].
  destruct (interpolate_description _ _) as [d|e]; [|reflexivity].
  cbn [res_bind]. unfold interpolate_expected_output.
  rewrite interpolate_only_plain by (vm_compute; reflexivity).
  reflexivity.
Qed.

Lemma eqb_succ_false (n : nat) : Nat.eqb n (S n) = false.
Proof. apply Nat.eqb_neq. lia. Qed.

Lemma eqb_succ_succ_false (n : nat) : Nat.eqb n (S (S n)) = false.
Proof. apply Nat.eqb_neq. lia. Qed.

(** The agent of each task is found among the agents of the crew. *)
Lemma agent_of_crew self n la lr ls :
  let agents := [analyst_of n la; researcher_of self n lr; synthesizer_of n ls] in
  agent_of agents (analyst_of n la) = analyst_of n la
  /\ agent_of agents (researcher_of self n lr) = researcher_of self n lr
  /\ agent_of agents (synthesizer_of n ls) = synthesizer_of n ls.
Proof.
  cbv zeta. unfold agent_of.
  cbn [List.find agent_id analyst_of researcher_of synthesizer_of Nat.add].
  rewrite !Nat.eqb_refl, eqb_succ_false, eqb_succ_succ_false.
  change (S n =? S (S n))%nat with (n =? S n)%nat.
  rewrite eqb_succ_false. repeat split.
Qed.

Lemma context_outputs_research n r1 :
  context_outputs [(3 + n, r1)%nat] (Some [3 + n]%nat) = [r1].
Proof. cbn. by rewrite Nat.eqb_refl. Qed.

Lemma context_outputs_synthesis n r1 r2 :
  context_outputs [(3 + n, r1)%nat; (4 + n, r2)%nat] (Some [4 + n]%nat) = [r2].
Proof. cbn. by rewrite eqb_succ_false, Nat.eqb_refl. Qed.

(** States built by successive [push]es are compared as one [push_all]. *)
Ltac by_pushes :=
  repeat match goal with x := _ : State |- _ => subst x end;
  rewrite !push_is_push_all, ?push_all_app; reflexivity.

Section SolveProblemFacts.

Variable w : World.

(** The kickoff of the crew of a run: the interpolation, then the three
    stages, then the result of the crew. *)
Lemma kickoff_crew_of_run self n problem la lr ls st :
  let crew := crew_of_run self n problem la lr ls in
  let st0 := push (EvKickoff crew [("problem", problem)]) st in
  kickoff w crew [("problem", problem)] st =
  match analysis_description problem with
  | Raise e => (Raise e, st0)
  | Val d =>
      match agent_execute w (analyst_of n la) (analysis_input d) st0 with
      | (Raise e, s1) => (Raise e, s1)
      | (Val plan, s1) =>
          match agent_execute w (researcher_of self n lr)
                  (stage_task (research_input_of plan)) s1 with
          | (Raise e, s2) => (Raise e, s2)
          | (Val report, s2) =>
              match agent_execute w (synthesizer_of n ls)
                      (stage_task (synthesis_input_of report)) s2 with
              | (Raise e, s3) => (Raise e, s3)
              | (Val answer, s3) => (crew_output [plan; report; answer], s3)
              end
          end
      end
  end.
Proof.
  cbv zeta. unfold kickoff.
  destruct (crew_of_run_parts self n problem la lr ls) as (_ & _ & ->).
  rewrite bind_run. cbn [log]. rewrite bind_run. unfold lift at 1.
  rewrite interpolate_crew_of_run.
  destruct (analysis_description problem) as [d|e]; [|reflexivity].
  cbn [fst snd run_sequential]. rewrite bind_run.
  destruct (agent_of_crew self n la lr ls) as (A1 & A2 & A3).
  cbn [task_agent analysis_task_of research_task_of synthesis_task_of].
  rewrite A1, A2, A3.
  change (task_input [] (analysis_task_of n la d)) with (analysis_input d).
  destruct (agent_execute w (analyst_of n la) (analysis_input d) _)
    as [[plan|e] s1]; [|reflexivity].
  rewrite bind_run. cbn [app].
  change (task_id (analysis_task_of n la d)) with (3 + n)%nat.
  replace (task_input [(3 + n, plan)%nat] (research_task_of self n lr))
    with (stage_task (research_input_of plan))
    by (unfold task_input, research_task_of; cbn [task_context];
        by rewrite context_outputs_research).
  destruct (agent_execute w (researcher_of self n lr) _ s1)
    as [[report|e] s2]; [|reflexivity].
  rewrite bind_run. cbn [app].
  change (task_id (research_task_of self n lr)) with (4 + n)%nat.
  replace (task_input [(3 + n, plan)%nat; (4 + n, report)%nat] (synthesis_task_of n ls))
    with (stage_task (synthesis_input_of report))
    by (unfold task_input, synthesis_task_of; cbn [task_context];
        by rewrite context_outputs_synthesis).
  destruct (agent_execute w (synthesizer_of n ls) _ s2)
    as [[answer|e] s3]; reflexivity.
Qed.

(** [solve_problem], step by step: the three lookups in [llms], the seven
    objects, the kickoff and the handler. *)
Lemma solve_problem_run problem st :
  solve_problem w problem st =
  let self := crew_system st in
  match llms self !! "analyst" with
  | None => (Raise (mkExc KeyError (py_repr "analyst")), st)
  | Some la =>
      match llms self !! "researcher" with
      | None => (Raise (mkExc KeyError (py_repr "researcher")), after_allocs 1 st)
      | Some lr =>
          match llms self !! "synthesizer" with
          | None => (Raise (mkExc KeyError (py_repr "synthesizer")), after_allocs 2 st)
          | Some ls =>
              match kickoff w (crew_of_run self (next_id st) problem la lr ls)
                      [("problem", problem)] (after_allocs 7 st) with
              | (Val result, st') => (Val result, st')
              | (Raise e, st') => (Val ("Error: " +:+ exc_str e), st')
              end
          end
      end
  end.
Proof.
  cbv zeta. unfold solve_problem. rewrite bind_run. cbn [get_self].
  rewrite bind_run. unfold dict_getitem at 1.
  destruct (llms (crew_system st) !! "analyst") as [la|]; [|reflexivity].
  cbn [ret]. rewrite bind_run. cbn [alloc]. rewrite bind_run. cbn [get_self].
  rewrite bind_run. unfold dict_getitem at 1. cbn [crew_system].
  destruct (llms (crew_system st) !! "researcher") as [lr|]; [|reflexivity].
  cbn [ret]. rewrite bind_run. cbn [alloc]. rewrite bind_run. cbn [get_self].
  rewrite bind_run. unfold dict_getitem at 1. cbn [crew_system].
  destruct (llms (crew_system st) !! "synthesizer") as [ls|]; [|reflexivity].
  cbn [ret]. rewrite bind_run. cbn [alloc]. rewrite bind_run. cbn [alloc].
  rewrite bind_run. cbn [alloc]. rewrite bind_run. cbn [alloc].
  rewrite bind_run. cbn [alloc]. cbn [trace next_id crew_system].
  unfold try_except. rewrite bind_run.
  match goal with |- context [kickoff w ?c ?i ?s] =>
    change (kickoff w c i s)
      with (kickoff w (crew_of_run (crew_system st) (next_id st) problem la lr ls)
              [("problem", problem)] (after_allocs 7 st))
  end.
  destruct (kickoff w _ _ _) as [[result|e] st']; reflexivity.
Qed.

(** Without its three connections [solve_problem] raises the [KeyError] of
    the first missing one, before anything is run. *)
Lemma solve_problem_unconnected problem st :
  ~ connected (crew_system st) ->
  exists e k, solve_problem w problem st = (Raise e, after_allocs k st)
              /\ exc_class e = KeyError.
Proof.
  intros Hn. rewrite solve_problem_run. cbv zeta.
  destruct (llms (crew_system st) !! "analyst") as [la|] eqn:Ea.
  2: { exists (mkExc KeyError (py_repr "analyst")), 0%nat. split; [|reflexivity].
       by destruct st. }
  destruct (llms (crew_system st) !! "researcher") as [lr|] eqn:Er.
  2: { eexists _, 1%nat. split; reflexivity. }
  destruct (llms (crew_system st) !! "synthesizer") as [ls|] eqn:Es.
  2: { eexists _, 2%nat. split; reflexivity. }
  exfalso. apply Hn. unfold connected. rewrite Ea, Er, Es. eauto.
Qed.

(** With its three connections [solve_problem] returns a string, after the
    kickoff of the crew and one of the runs of the pipeline. *)
Lemma solve_problem_stages problem st la lr ls :
  llms (crew_system st) !! "analyst" = Some la ->
  llms (crew_system st) !! "researcher" = Some lr ->
  llms (crew_system st) !! "synthesizer" = Some ls ->
  exists stages s,
    solve_problem w problem st =
      (Val s,
       push_all (EvKickoff (crew_of_run (crew_system st) (next_id st) problem la lr ls)
                   [("problem", problem)] :: stages)
                (after_allocs 7 st))
    /\ pipeline_run (analyst_of (next_id st) la)
         (researcher_of (crew_system st) (next_id st) lr)
         (synthesizer_of (next_id st) ls) problem stages s.
Proof.
  intros Ea Er Es. rewrite solve_problem_run. cbv zeta. rewrite Ea, Er, Es.
  rewrite kickoff_crew_of_run. cbv zeta.
  set (crew := crew_of_run _ _ _ _ _ _).
  set (st0 := push (EvKickoff crew _) (after_allocs 7 st)).
  destruct (analysis_description problem) as [d|e0] eqn:Ed.
  2: { exists [], ("Error: " +:+ exc_str e0).
       split; [by_pushes | by apply run_interpolation_raised]. }
  rewrite agent_execute_run. cbv zeta.
  destruct (execute_task w (length (trace st0)) _ _) as [plan|e1].
  2: { eexists [_], _. split; [by_pushes | by apply run_analysis_raised]. }
  set (st1 := push _ st0).
  rewrite agent_execute_run. cbv zeta.
  destruct (execute_task w (length (trace st1)) _ _) as [report|e2].
  2: { eexists [_; _], _. split; [by_pushes | by apply run_research_raised]. }
  set (st2 := push _ st1).
  rewrite agent_execute_run. cbv zeta.
  destruct (execute_task w (length (trace st2)) _ _) as [answer|e3].
  2: { eexists [_; _; _], _. split; [by_pushes | by apply run_synthesis_raised]. }
  exists [EvExecuteTask (analyst_of (next_id st) la) (analysis_input d) (ExecOutput plan);
          EvExecuteTask (researcher_of (crew_system st) (next_id st) lr)
            (stage_task (research_input_of plan)) (ExecOutput report);
          EvExecuteTask (synthesizer_of (next_id st) ls)
            (stage_task (synthesis_input_of report)) (ExecOutput answer)],
    (answer_of [plan; report; answer]).
  split; [|by apply run_completed].
  unfold answer_of.
  destruct (crew_output [plan; report; answer]) as [raw|e]; by_pushes.
Qed.

End SolveProblemFacts.

Lemma connected_dec self : connected self \/ ~ connected self.
Proof.
  unfold connected.
  destruct (llms self !! "analyst"), (llms self !! "researcher"),
    (llms self !! "synthesizer");
    (left; by eauto) || (right; intros (H1 & H2 & H3); by inversion H1 || by inversion H2 || by inversion H3).
Qed.

(** *** What every run of the pipeline has *)

Section PipelineRuns.

Variables (analyst researcher synthesizer : Agent) (problem : string).
Variables (stages : list Event) (s : string).
Hypothesis Hrun : pipeline_run analyst researcher synthesizer problem stages s.

(** Once the inputs are interpolated, the stages run in the order of the
    roles, each handed the output of the stage before it; when the
    interpolation fails, no stage runs. *)
Lemma pipeline_run_chained :
  agent_role analyst = analyst_role ->
  agent_role researcher = researcher_role ->
  agent_role synthesizer = synthesizer_role ->
  match analysis_description problem with
  | Val _ => chained stage_roles [] stages
  | Raise _ => stages = []
  end.
Proof.
  intros Ha Hr Hs. destruct Hrun as [e H|d e H|d plan e H|d plan report e H|d plan report answer H];
    rewrite H; cbn; repeat split; auto.
Qed.

Lemma pipeline_run_synthesis :
  agent_role analyst = analyst_role ->
  agent_role researcher = researcher_role ->
  agent_role synthesizer = synthesizer_role ->
  agent_goal synthesizer = synthesizer_goal ->
  agent_backstory synthesizer = synthesizer_backstory ->
  synthesis_inputs stages = map synthesis_input_of (research_reports stages).
Proof.
  intros Ha Hr Hs Hg Hb.
  destruct Hrun; cbn [synthesis_inputs research_reports omap list_omap];
    rewrite ?Ha, ?Hr, ?Hs, ?Hg, ?Hb; reflexivity.
Qed.

Lemma pipeline_run_research :
  agent_role analyst = analyst_role ->
  agent_role researcher = researcher_role ->
  agent_role synthesizer = synthesizer_role ->
  agent_goal researcher = researcher_goal ->
  agent_backstory researcher = researcher_backstory ->
  research_inputs stages = map research_input_of (analysis_plans stages).
Proof.
  intros Ha Hr Hs Hg Hb.
  destruct Hrun; cbn [research_inputs analysis_plans omap list_omap];
    rewrite ?Ha, ?Hr, ?Hs, ?Hg, ?Hb; reflexivity.
Qed.

Lemma pipeline_run_events :
  forallb is_pipeline_event stages = true /\ (length stages <= 3)%nat.
Proof. destruct Hrun; cbn; split; (reflexivity || lia). Qed.

Lemma pipeline_run_no_kickoff crew inputs : ~ In (EvKickoff crew inputs) stages.
Proof.
  destruct Hrun; cbn; intros Hin;
    repeat (destruct Hin as [Hin|Hin]; [discriminate|]); exact Hin.
Qed.

(** A stage that raised is the end of the run, and its exception is the
    error text. *)
Lemma pipeline_run_raised a input e :
  In (EvExecuteTask a input (ExecRaises e)) stages ->
  s = "Error: " +:+ exc_str e
  /\ last stages = Some (EvExecuteTask a input (ExecRaises e)).
Proof.
  destruct Hrun; cbn; intros Hin;
    repeat (destruct Hin as [Hin|Hin];
            [try discriminate; injection Hin as <- <- <-; split; reflexivity|]);
    destruct Hin.
Qed.

End PipelineRuns.

Section SolveProblem.

Variable w : World.

(** The two ways a call of [solve_problem] goes. *)
Lemma solve_problem_cases problem st :
  (~ connected (crew_system st)
   /\ exists e k, solve_problem w problem st = (Raise e, after_allocs k st)
                  /\ exc_class e = KeyError)
  \/ (connected (crew_system st)
      /\ exists la lr ls stages s,
           (llms (crew_system st) !! "analyst" = Some la
            /\ llms (crew_system st) !! "researcher" = Some lr
            /\ llms (crew_system st) !! "synthesizer" = Some ls)
           /\ solve_problem w problem st =
                (Val s,
                 push_all (EvKickoff (crew_of_run (crew_system st) (next_id st)
                                        problem la lr ls)
                             [("problem", problem)] :: stages)
                          (after_allocs 7 st))
           /\ pipeline_run (analyst_of (next_id st) la)
                (researcher_of (crew_system st) (next_id st) lr)
                (synthesizer_of (next_id st) ls) problem stages s).
Proof.
  destruct (connected_dec (crew_system st)) as [Hc | Hn].
  - right. split; [exact Hc|]. destruct Hc as ([la Ea] & [lr Er] & [ls Es]).
    destruct (solve_problem_stages w problem st la lr ls Ea Er Es)
      as (stages & s & H & Hrun).
    by exists la, lr, ls, stages, s.
  - left. split; [exact Hn|]. by apply solve_problem_unconnected.
Qed.

Lemma run_events_raise {A} (m : M A) st k r :
  m st = (r, after_allocs k st) -> run_events m st = [].
Proof. intros H. unfold run_events. rewrite H. cbn. apply drop_all. Qed.

Lemma run_events_stages {A} (m : M A) st k r evs :
  m st = (r, push_all evs (after_allocs k st)) -> run_events m st = evs.
Proof. intros H. unfold run_events. rewrite H. cbn. apply drop_app_length. Qed.

(** C4. With its three connections, [solve_problem] hands the crew to
    [kickoff] and returns a string whatever happens there: the result of
    the crew, or ["Error: " ++ str(e)] for an exception [e] that left the
    kickoff, be it raised by the interpolation of the inputs before any
    stage, by a stage, or by the crew for want of an output.  An answer and
    an error text are both plain strings.  Without a connection the
    [KeyError] of the lookup leaves [solve_problem]: it is raised while the
    agents are built, before the kickoff, and nothing of the pipeline has
    run. *)
Theorem solve_problem_catches problem st :
  let self := crew_system st in
  let inputs := [("problem", problem)] in
  (connected self ->
   exists la lr ls,
     (llms self !! "analyst" = Some la
      /\ llms self !! "researcher" = Some lr
      /\ llms self !! "synthesizer" = Some ls)
     /\ let crew := crew_of_run self (next_id st) problem la lr ls in
        solve_problem w problem st =
          match kickoff w crew inputs (after_allocs 7 st) with
          | (Val result, st') => (Val result, st')
          | (Raise e, st') => (Val ("Error: " +:+ exc_str e), st')
          end
        /\ exists stages s,
             fst (solve_problem w problem st) = Val s
             /\ run_events (solve_problem w problem) st
                = EvKickoff crew inputs :: stages
             /\ pipeline_run (analyst_of (next_id st) la)
                  (researcher_of self (next_id st) lr)
                  (synthesizer_of (next_id st) ls) problem stages s
             /\ (forall e, analysis_description problem = Raise e ->
                           stages = [] /\ s = "Error: " +:+ exc_str e)
             /\ (forall a input e,
                   In (EvExecuteTask a input (ExecRaises e)) stages ->
                   s = "Error: " +:+ exc_str e))
  /\ (~ connected self ->
      exists e,
        fst (solve_problem w problem st) = Raise e
        /\ exc_class e = KeyError
        /\ run_events (solve_problem w problem) st = []).
Proof.
  cbv zeta. split.
  - intros Hc.
    destruct (solve_problem_cases problem st)
      as [(Hn & _) | (_ & la & lr & ls & stages & s & (Ea & Er & Es) & H & Hrun)];
      [contradiction|].
    exists la, lr, ls. split; [auto|]. split.
    + rewrite solve_problem_run. cbv zeta. by rewrite Ea, Er, Es.
    + exists stages, s. rewrite H. split; [reflexivity|].
      split; [by eapply run_events_stages|]. split; [exact Hrun|]. split.
      * intros e He.
        pose proof (pipeline_run_chained _ _ _ _ _ _ Hrun eq_refl eq_refl eq_refl) as Hch.
        rewrite He in Hch. split; [exact Hch|].
        destruct Hrun; congruence.
      * intros a input e Hin.
        exact (proj1 (pipeline_run_raised _ _ _ _ _ _ Hrun a input e Hin)).
  - intros Hn.
    destruct (solve_problem_unconnected w problem st Hn) as (e & k & H & He).
    exists e. rewrite H. split; [reflexivity|]. split; [exact He|].
    by eapply run_events_raise.
Qed.

(** The synthesis stage is handed the report of the research stage and the
    fixed texts of its task, in every run. *)
Lemma synthesis_inputs_of_run problem st :
  synthesis_inputs (run_events (solve_problem w problem) st)
  = map synthesis_input_of (research_reports (run_events (solve_problem w problem) st)).
Proof.
  destruct (solve_problem_cases problem st)
    as [(_ & e & k & H & He) | (_ & la & lr & ls & stages & s & _ & H & Hrun)].
  - by rewrite (run_events_raise _ _ _ _ H).
  - rewrite (run_events_stages _ _ _ _ _ H).
    exact (pipeline_run_synthesis _ _ _ _ _ _ Hrun eq_refl eq_refl eq_refl
             eq_refl eq_refl).
Qed.

(** The research stage is handed the plan of the analysis stage and the
    fixed texts of its task, in every run. *)
Lemma research_inputs_of_run problem st :
  research_inputs (run_events (solve_problem w problem) st)
  = map research_input_of (analysis_plans (run_events (solve_problem w problem) st)).
Proof.
  destruct (solve_problem_cases problem st)
    as [(_ & e & k & H & He) | (_ & la & lr & ls & stages & s & _ & H & Hrun)].
  - by rewrite (run_events_raise _ _ _ _ H).
  - rewrite (run_events_stages _ _ _ _ _ H).
    exact (pipeline_run_research _ _ _ _ _ _ Hrun eq_refl eq_refl eq_refl
             eq_refl eq_refl).
Qed.

(** The objects of the crew of a run have distinct identities, the seven
    identities handed out from [n] on. *)
Lemma crew_of_run_objects self n problem la lr ls :
  NoDup (object_ids (crew_of_run self n problem la lr ls))
  /\ Forall (fun i => (n <= i < 7 + n)%nat)
            (object_ids (crew_of_run self n problem la lr ls)).
Proof.
  unfold object_ids, crew_of_run.
  cbn [crew_id crew_agents crew_tasks map app agent_id task_id].
  split.
  - repeat (apply NoDup_cons; split;
            [rewrite ?elem_of_cons, elem_of_nil; lia|]).
    apply NoDup_nil_2.
  - repeat (apply Forall_cons; split; [lia|]). apply Forall_nil_2.
Qed.

(** The crew of a call: its settings, and the identities of its objects,
    all handed out by the allocator during the call. *)
Lemma solve_problem_crew problem st crew inputs :
  In (EvKickoff crew inputs) (run_events (solve_problem w problem) st) ->
  crew_memory crew = false
  /\ crew_max_rpm crew = 30
  /\ NoDup (object_ids crew)
  /\ Forall (fun i => (next_id st <= i < next_id (snd (solve_problem w problem st)))%nat)
            (object_ids crew).
Proof.
  destruct (solve_problem_cases problem st)
    as [(_ & e & k & H & _) | (_ & la & lr & ls & stages & s & _ & H & Hrun)].
  - rewrite (run_events_raise _ _ _ _ H). intros [].
  - rewrite (run_events_stages _ _ _ _ _ H), H. cbn [snd].
    intros [Heq | Hin];
      [|by apply (pipeline_run_no_kickoff _ _ _ _ _ _ Hrun) in Hin].
    injection Heq as <- <-. split; [reflexivity|]. split; [reflexivity|].
    exact (crew_of_run_objects _ _ _ _ _ _).
Qed.

Lemma solve_problem_frame problem st :
  crew_system (snd (solve_problem w problem st)) = crew_system st
  /\ (next_id st <= next_id (snd (solve_problem w problem st)))%nat.
Proof.
  destruct (solve_problem_cases problem st)
    as [(_ & e & k & H & _) | (_ & la & lr & ls & stages & s & _ & H & _)];
    rewrite H; cbn; split; (reflexivity || lia).
Qed.

Lemma solve_problem_returns_iff problem st :
  returns (fst (solve_problem w problem st)) <-> connected (crew_system st).
Proof.
  destruct (solve_problem_cases problem st)
    as [(Hn & e & k & H & _) | (Hc & la & lr & ls & stages & s & _ & H & _)];
    rewrite H; cbn [fst returns]; tauto.
Qed.

(** C6. A call of [solve_problem] leaves every field of the
    [MultiModelCrew] instance as it was.  With its three connections the
    call returns, and it kicks off exactly one crew, first of all: a crew
    of three agents and three tasks with the memory off and at most 30
    requests per minute, the crew and its agents and tasks being seven
    objects with distinct identities, all created during this call.  The
    crew of a call that follows shares no object with it.  Whether the call
    returns or raises is the same for the call that follows it, on the same
    or on another problem: a first call leaves nothing behind that makes
    the second fail. *)
Theorem solve_problem_no_leftover_state problem st :
  let st' := snd (solve_problem w problem st) in
  let evs := run_events (solve_problem w problem) st in
  crew_system st' = crew_system st
  /\ (connected (crew_system st) ->
      returns (fst (solve_problem w problem st))
      /\ exists crew stages,
           evs = EvKickoff crew [("problem", problem)] :: stages
           /\ (forall crew' inputs', ~ In (EvKickoff crew' inputs') stages)
           /\ length (crew_agents crew) = 3%nat
           /\ length (crew_tasks crew) = 3%nat
           /\ Forall (fun t => In (task_agent t) (crew_agents crew)) (crew_tasks crew)
           /\ crew_memory crew = false
           /\ crew_max_rpm crew = 30
           /\ NoDup (object_ids crew)
           /\ Forall (fun i => (next_id st <= i < next_id st')%nat) (object_ids crew))
  /\ (forall crew inputs,
        In (EvKickoff crew inputs) evs ->
        crew_memory crew = false
        /\ crew_max_rpm crew = 30
        /\ NoDup (object_ids crew)
        /\ forall problem' crew' inputs',
             In (EvKickoff crew' inputs') (run_events (solve_problem w problem') st') ->
             Forall (fun i => ~ In i (object_ids crew)) (object_ids crew'))
  /\ (forall problem',
        returns (fst (solve_problem w problem st))
        <-> returns (fst (solve_problem w problem' st'))).
Proof.
  cbv zeta. destruct (solve_problem_frame problem st) as [Hself Hid].
  split; [exact Hself|]. split; [|split].
  - intros Hc. split; [by apply solve_problem_returns_iff|].
    destruct (solve_problem_cases problem st)
      as [(Hn & _) | (_ & la & lr & ls & stages & s & _ & H & Hrun)];
      [contradiction|].
    eexists _, stages. split; [by eapply run_events_stages|].
    split; [intros crew' inputs'; by eapply pipeline_run_no_kickoff|].
    split; [reflexivity|]. split; [reflexivity|]. split.
    { cbn. repeat (apply Forall_cons; split; [tauto|]). apply Forall_nil_2. }
    split; [reflexivity|]. split; [reflexivity|].
    rewrite H. cbn [snd push_all after_allocs next_id].
    exact (crew_of_run_objects _ _ _ _ _ _).
  - intros crew inputs Hin.
    destruct (solve_problem_crew _ _ _ _ Hin) as (Hm & Hr & Hnd & Hold).
    split; [exact Hm|]. split; [exact Hr|]. split; [exact Hnd|].
    intros problem' crew' inputs' Hin'.
    destruct (solve_problem_crew _ _ _ _ Hin') as (_ & _ & _ & Hnew).
    rewrite Forall_forall in Hold, Hnew |- *.
    intros i Hi' Hi. apply list_elem_of_In in Hi.
    specialize (Hold i Hi). specialize (Hnew i Hi'). lia.
  - intros problem'. rewrite !solve_problem_returns_iff, Hself. reflexivity.
Qed.

(** C7. Without a connection nothing runs.  With its three connections the
    run of [solve_problem] is the kickoff of a crew followed by its stage
    events.  The crew uses the sequential process on three tasks, analysis,
    research and synthesis; the analysis task declares no context, the
    research task declares the analysis task as its context and the
    synthesis task the research task.  When the interpolation of the inputs
    fails no stage runs.  Otherwise the analysis stage runs, and the stage
    events come in the order of the tasks: the research stage appears only
    after the analysis stage has given its output and is handed that
    output, and likewise the synthesis stage after the research stage; a
    stage that raises is the last. *)
Theorem pipeline_stages_chained problem st :
  let evs := run_events (solve_problem w problem) st in
  let inputs := [("problem", problem)] in
  (~ connected (crew_system st) -> evs = [])
  /\ (connected (crew_system st) ->
      exists crew ta tr ts stages,
        evs = EvKickoff crew inputs :: stages
        /\ crew_process crew = sequential
        /\ crew_tasks crew = [ta; tr; ts]
        /\ map (fun t => agent_role (task_agent t)) (crew_tasks crew) = stage_roles
        /\ task_context ta = None
        /\ task_context tr = Some [task_id ta]
        /\ task_context ts = Some [task_id tr]
        /\ NoDup [task_id ta; task_id tr; task_id ts]
        /\ match interpolate_crew inputs crew with
           | Val _ => stages <> [] /\ chained stage_roles [] stages
           | Raise _ => stages = []
           end).
Proof.
  cbv zeta.
  destruct (solve_problem_cases problem st)
    as [(Hn & e & k & H & _) | (Hc & la & lr & ls & stages & s & _ & H & Hrun)].
  - split; [intros _; by eapply run_events_raise | contradiction].
  - split; [contradiction | intros _].
    rewrite (run_events_stages _ _ _ _ _ H).
    eexists _, _, _, _, stages. split; [reflexivity|].
    split; [reflexivity|]. split; [reflexivity|]. split; [reflexivity|].
    split; [reflexivity|]. split; [reflexivity|]. split; [reflexivity|].
    split.
    { cbn [task_id].
      repeat (apply NoDup_cons; split;
              [rewrite ?elem_of_cons, elem_of_nil; lia|]).
      apply NoDup_nil_2. }
    rewrite interpolate_crew_of_run.
    pose proof (pipeline_run_chained _ _ _ _ _ _ Hrun eq_refl eq_refl eq_refl) as Hch.
    destruct (analysis_description problem) as [d|e]; [|exact Hch].
    split; [|exact Hch]. intros ->. exact Hch.
Qed.

End SolveProblem.

(** C5. In every run what the synthesis stage is handed (the texts of its
    agent and of its task, and its context) is made of the report of the
    research stage and of fixed texts: neither the problem nor the plan of
    the analysis enters it.  So two runs, whatever their worlds, states and
    problems, whose research stages gave the same reports hand the same
    input to their synthesis stages. *)
Theorem synthesis_input_depends_on_report_only w1 w2 problem1 problem2 st1 st2 :
  let evs1 := run_events (solve_problem w1 problem1) st1 in
  let evs2 := run_events (solve_problem w2 problem2) st2 in
  synthesis_inputs evs1 = map synthesis_input_of (research_reports evs1)
  /\ (research_reports evs1 = research_reports evs2 ->
      synthesis_inputs evs1 = synthesis_inputs evs2).
Proof.
  cbv zeta. split; [apply synthesis_inputs_of_run|].
  intros H. rewrite !synthesis_inputs_of_run, H. reflexivity.
Qed.

(** ** Examples *)

(** The catalog holds ["gemma3:1b"]: ["gemma3"] is available; on the empty
    catalog it is not. *)
Lemma check_model_availability_substring_witness :
  fst (check_model_availability (world_with ["gemma3:1b"] (fun _ => 0))
         the_manager "gemma3" initial_state) = Val true
  /\ fst (check_model_availability (world_with [] (fun _ => 0))
            the_manager "gemma3" initial_state) = Val false.
Proof.
  split.
  - destruct (check_model_availability_substring
                (world_with ["gemma3:1b"] (fun _ => 0)) the_manager "gemma3"
                initial_state ["gemma3:1b"] _ eq_refl) as [H _].
    rewrite H. reflexivity.
  - destruct (check_model_availability_substring
                (world_with [] (fun _ => 0)) the_manager "gemma3"
                initial_state [] _ eq_refl) as [H _].
    rewrite H. reflexivity.
Defined.

Example availability_no_match :
  fst (check_model_availability (world_with ["gemma3:1b"; "qwen3:1.7b"] (fun _ => 0))
         the_manager "llama" initial_state) = Val false.
Proof. vm_compute. reflexivity. Qed.

(** An entry without ['name'] makes the catalog query raise a [KeyError],
    which is not a [RequestException] and passes through. *)
Example malformed_catalog_raises :
  fst (check_model_availability world_malformed_catalog the_manager "gemma3"
         initial_state) = Raise (mkExc KeyError "'name'").
Proof. vm_compute. reflexivity. Qed.

Example unreachable_backend_is_down :
  fst (check_ollama_status world_unreachable the_manager initial_state) = Val false.
Proof. vm_compute. reflexivity. Qed.

Example status_500_is_down :
  fst (check_ollama_status world_unhealthy the_manager initial_state) = Val false.
Proof. vm_compute. reflexivity. Qed.


Example installed_model_is_not_pulled :
  pull_model_if_needed (world_with all_models (fun _ => 1)) the_manager "gemma3:1b"
    initial_state
  = (Val true, push (EvHttpGet "http://localhost:11434/api/tags" None
                       (ok_response all_models)) initial_state).
Proof. vm_compute. reflexivity. Qed.

Example initialize_system_connects :
  fst (initialize_system (world_with all_models (fun _ => 0)) initial_state) = Val true
  /\ connected (crew_system ready_state).
Proof.
  split; [vm_compute; reflexivity|].
  repeat split; vm_compute; eauto.
Qed.

Example solve_problem_answers :
  fst (solve_problem (stage_world (ExecOutput reason_plan) (ExecOutput "4")
                        (ExecOutput "The answer is 4."))
         "What is 2+2?" ready_state) = Val "The answer is 4.".
Proof. vm_compute. reflexivity. Qed.

(** A failure and an answer can be the same string. *)
Example error_and_answer_collide :
  fst (solve_problem (stage_world (ExecOutput reason_plan) (ExecRaises boom)
                        (ExecOutput "The answer is 4."))
         "What is 2+2?" ready_state) = Val "Error: boom"
  /\ fst (solve_problem (stage_world (ExecOutput reason_plan) (ExecOutput "4")
                           (ExecOutput "Error: boom"))
            "What is 2+2?" ready_state) = Val "Error: boom".
Proof. split; vm_compute; reflexivity. Qed.

(** A problem with a brace pair: the f-string has pasted it into the
    description of the analysis task, where the kickoff reads it as a
    placeholder without a value; the kickoff raises before any stage, and
    [solve_problem] returns the error text. *)
Example solve_problem_unknown_placeholder :
  let w := stage_world (ExecOutput reason_plan) (ExecOutput "4")
             (ExecOutput "The answer is 4.") in
  fst (solve_problem w "What is {foo}?" ready_state)
  = Val ("Error: Missing required template variable 'Template variable 'foo' " +:+
         "not found in inputs dictionary' in description")
  /\ length (run_events (solve_problem w "What is {foo}?") ready_state) = 1%nat.
Proof. split; vm_compute; reflexivity. Qed.

(** The synthesis gives an empty output: the result of the crew is the
    last output that is not empty, the report of the research. *)
Example solve_problem_empty_synthesis :
  fst (solve_problem (stage_world (ExecOutput reason_plan) (ExecOutput "4")
                        (ExecOutput EmptyString))
         "What is 2+2?" ready_state) = Val "4".
Proof. vm_compute. reflexivity. Qed.

(** Every output is empty: the crew has no result and raises. *)
Example solve_problem_no_output :
  fst (solve_problem (stage_world (ExecOutput EmptyString) (ExecOutput EmptyString)
                        (ExecOutput EmptyString))
         "What is 2+2?" ready_state)
  = Val "Error: No valid task outputs available to create crew output.".
Proof. vm_compute. reflexivity. Qed.

(** The braces of [{problem}] in a problem are filled with the problem
    itself. *)
Example solve_problem_problem_placeholder :
  analysis_description "Solve {problem}"
  = Val (analysis_task_description "Solve Solve {problem}").
Proof. vm_compute. reflexivity. Qed.

Lemma ready_state_connected : connected (crew_system ready_state).
Proof. repeat split; vm_compute; eauto. Qed.

(** The run on a problem with an unknown placeholder, by C4. *)
Lemma solve_problem_catches_witness :
  fst (solve_problem (stage_world (ExecOutput reason_plan) (ExecOutput "4")
                        (ExecOutput "The answer is 4."))
         "What is {foo}?" ready_state)
  = Val ("Error: Missing required template variable 'Template variable 'foo' " +:+
         "not found in inputs dictionary' in description").
Proof.
  destruct (proj1 (solve_problem_catches
                     (stage_world (ExecOutput reason_plan) (ExecOutput "4")
                        (ExecOutput "The answer is 4."))
                     "What is {foo}?" ready_state) ready_state_connected)
    as (la & lr & ls & _ & _ & stages & s & Hs & _ & _ & Hint & _).
  rewrite Hs.
  destruct (Hint (ValueError ("Missing required template variable 'Template variable 'foo' " +:+
                              "not found in inputs dictionary' in description")))
    as [_ ->]; vm_compute; reflexivity.
Defined.

(** A call on an initialized instance returns and starts with the kickoff
    of its crew, by C6. *)
Lemma solve_problem_no_leftover_state_witness :
  returns (fst (solve_problem (stage_world (ExecOutput reason_plan) (ExecOutput "4")
                                 (ExecOutput "The answer is 4."))
                  "What is 2+2?" ready_state)).
Proof.
  exact (proj1 (proj1 (proj2 (solve_problem_no_leftover_state
                                (stage_world (ExecOutput reason_plan) (ExecOutput "4")
                                   (ExecOutput "The answer is 4."))
                                "What is 2+2?" ready_state))
                  ready_state_connected)).
Defined.

(** A call on an initialized instance runs its crew, by C7. *)
Lemma pipeline_stages_chained_witness :
  run_events (solve_problem (stage_world (ExecOutput reason_plan) (ExecOutput "4")
                               (ExecOutput "The answer is 4."))
                "What is 2+2?") ready_state <> [].
Proof.
  destruct (proj2 (pipeline_stages_chained
                     (stage_world (ExecOutput reason_plan) (ExecOutput "4")
                        (ExecOutput "The answer is 4."))
                     "What is 2+2?" ready_state) ready_state_connected)
    as (crew & ta & tr & ts & stages & Hevs & _).
  rewrite Hevs. discriminate.
Defined.

Example solve_problem_before_initialization :
  fst (solve_problem (stage_world (ExecOutput reason_plan) (ExecOutput "4")
                        (ExecOutput "The answer is 4."))
         "What is 2+2?" initial_state) = Raise (mkExc KeyError "'analyst'").
Proof. vm_compute. reflexivity. Qed.

(** Two runs on different problems, with different plans, whose research
    stages report ["4"]: the synthesis stages are handed the same input. *)
Lemma synthesis_input_depends_on_report_only_witness :
  synthesis_inputs
    (run_events (solve_problem (stage_world (ExecOutput reason_plan) (ExecOutput "4")
                                  (ExecOutput "The answer is 4."))
                   "What is 2+2?") ready_state)
  = synthesis_inputs
      (run_events (solve_problem (stage_world (ExecOutput "SEARCH") (ExecOutput "4")
                                    (ExecOutput "Four."))
                     "How many seasons are there in a year?")
         (snd (solve_problem (stage_world (ExecOutput reason_plan) (ExecOutput "4")
                                (ExecOutput "The answer is 4."))
                 "What is 2+2?" ready_state))).
Proof.
  apply (proj2 (synthesis_input_depends_on_report_only _ _ _ _ _ _)).
  vm_compute. reflexivity.
Defined.

Example solve_problem_twice :
  let w := stage_world (ExecOutput reason_plan) (ExecOutput "4")
             (ExecOutput "The answer is 4.") in
  let st' := snd (solve_problem w "What is 2+2?" ready_state) in
  fst (solve_problem w "What is 2+2?" st') = Val "The answer is 4."
  /\ crew_system st' = crew_system ready_state.
Proof. split; vm_compute; reflexivity. Qed.

(** * Further properties *)

(** ** The catalog query *)

Lemma run_events_of_push_all {A} (m : M A) st evs :
  snd (m st) = push_all evs st -> run_events m st = evs.
Proof. intros H. unfold run_events. rewrite H. cbn. apply drop_app_length. Qed.

Lemma string_append_assoc (a b c : string) : (a +:+ b) +:+ c = a +:+ (b +:+ c).
Proof.
  induction a as [|x a IH]; [reflexivity|].
  rewrite !append_cons. by rewrite IH.
Qed.

Lemma string_append_empty_r (s : string) : s +:+ EmptyString = s.
Proof.
  induction s as [|c s IH]; [reflexivity|]. by rewrite append_cons, IH.
Qed.

Lemma str_in_refl (s : string) : str_in s s = true.
Proof.
  apply str_in_spec. exists EmptyString, EmptyString.
  change (EmptyString +:+ s +:+ EmptyString) with (s +:+ EmptyString).
  by rewrite string_append_empty_r.
Qed.

Lemma py_names_named models names :
  Forall2 named models names -> py_names models = Val names.
Proof.
  induction 1 as [|model n models names (fields & -> & Hn) _ IH]; [reflexivity|].
  cbn [py_names py_getitem]. by rewrite Hn, IH.
Qed.

Lemma py_names_lacks models :
  Forall is_object models -> Exists lacks_name models ->
  py_names models = Raise (mkExc KeyError "'name'").
Proof.
  induction 1 as [|model models [fields ->] _ IH]; intros Hex.
  - inversion Hex.
  - cbn [py_names py_getitem].
    destruct (assoc_lookup "name" fields) as [n|] eqn:En; [|reflexivity].
    rewrite IH; [reflexivity|].
    apply Exists_cons in Hex as [(fields' & Heq & Hnone) | Hex]; [|exact Hex].
    injection Heq as <-. congruence.
Qed.

(** The exceptions of the walk through the catalog are [KeyError]s and
    [TypeError]s, those of the membership tests [TypeError]s: no
    [RequestException]. *)
Lemma py_getitem_raise j key e :
  py_getitem j key = Raise e -> is_RequestException e = false.
Proof.
  destruct j; cbn; try (intros [= <-]; reflexivity).
  destruct (assoc_lookup key kv); [discriminate | intros [= <-]; reflexivity].
Qed.

Lemma py_names_raise models e :
  py_names models = Raise e -> is_RequestException e = false.
Proof.
  revert e. induction models as [|m l IH]; intros e; [discriminate|].
  cbn [py_names]. destruct (py_getitem m "name") as [n|e'] eqn:En.
  - destruct (py_names l) as [ns|e'']; [discriminate|].
    intros [= <-]. by apply IH.
  - intros [= <-]. by eapply py_getitem_raise.
Qed.

Lemma py_any_in_raise model_name models e :
  py_any_in model_name models = Raise e -> exc_class e = TypeError.
Proof.
  revert e. induction models as [|m l IH]; intros e; [discriminate|].
  cbn [py_any_in]. destruct (py_in model_name m) as [[|]|e'] eqn:Ein.
  - discriminate.
  - apply IH.
  - intros [= <-]. destruct m; cbn in Ein; try discriminate;
      injection Ein as <-; reflexivity.
Qed.

Section CatalogQuery.

Variable w : World.

(** X1. When the catalog request fails at the network level, or comes back
    with a status other than 200, [list_available_models] returns the empty
    list, and so every model is reported as not available. *)
Theorem list_available_models_degrades self st :
  let url := api_url self +:+ "/tags" in
  let out := requests_get w (length (trace st)) url None in
  match out with
  | HttpResponse r => status_code r <> 200
  | HttpRaises _ => True
  | HttpRaisesOther _ _ => False
  end ->
  list_available_models w self st = (Val [], push (EvHttpGet url None out) st)
  /\ forall model_name,
       check_model_availability w self model_name st
       = (Val false, push (EvHttpGet url None out) st).
Proof.
  cbv zeta. intros H.
  assert (list_available_models w self st
          = (Val [], push (EvHttpGet (api_url self +:+ "/tags") None
                             (requests_get w (length (trace st))
                                (api_url self +:+ "/tags") None)) st)) as Hl.
  { unfold list_available_models, try_except. rewrite bind_run, http_get_run.
    cbv zeta.
    destruct (requests_get w (length (trace st)) (api_url self +:+ "/tags") None)
      as [r|msg|cls msg]; [|reflexivity|contradiction].
    apply Z.eqb_neq in H. by rewrite H. }
  split; [exact Hl|]. intros model_name.
  by rewrite check_model_availability_run, Hl.
Qed.

(** The catalog query on a response with status 200, by the outcome of
    [response.json()]. *)
Lemma list_available_models_200 self st r :
  requests_get w (length (trace st)) (api_url self +:+ "/tags") None = HttpResponse r ->
  status_code r = 200 ->
  list_available_models w self st =
  (match json r with
   | JsonValue j =>
       match py_get j "models" (JArr []) with
       | Val models =>
           match py_iter models with
           | Val items => py_names items
           | Raise e => Raise e
           end
       | Raise e => Raise e
       end
   | JsonRaises e => if is_RequestException e then Val [] else Raise e
   end,
   push (EvHttpGet (api_url self +:+ "/tags") None (HttpResponse r)) st).
Proof.
  intros Hout Hs. unfold list_available_models, try_except.
  rewrite bind_run, http_get_run. cbv zeta. rewrite Hout, Hs. cbn [Z.eqb Pos.eqb].
  unfold response_json, lift, bind, ret, raise.
  destruct (json r) as [j|e].
  - destruct (py_get j "models" (JArr [])) as [models|e] eqn:Eg.
    + destruct (py_iter models) as [items|e] eqn:Ei.
      * destruct (py_names items) as [ns|e] eqn:En; [reflexivity|].
        cbn [select_clause]. by rewrite (py_names_raise _ _ En).
      * cbn [select_clause].
        destruct models; cbn in Ei; try discriminate; injection Ei as <-; reflexivity.
    + cbn [select_clause].
      destruct j; cbn in Eg; try discriminate; injection Eg as <-; reflexivity.
  - cbn [select_clause]. destruct (is_RequestException e); reflexivity.
Qed.

(** X2. On a response with status 200 whose body is an object with a list
    under ['models'], each item an object with a value under ['name'],
    [list_available_models] returns these values, in the order of the
    list; the other fields of the items do not matter. *)
Theorem list_available_models_names self st r body models names :
  requests_get w (length (trace st)) (api_url self +:+ "/tags") None = HttpResponse r ->
  status_code r = 200 ->
  json r = JsonValue (JObj body) ->
  assoc_lookup "models" body = Some (JArr models) ->
  Forall2 named models names ->
  list_available_models w self st
  = (Val names, push (EvHttpGet (api_url self +:+ "/tags") None (HttpResponse r)) st).
Proof.
  intros Hout Hs Hj Hm Hn.
  rewrite (list_available_models_200 _ _ _ Hout Hs), Hj. cbn [py_get].
  rewrite Hm. cbn [default from_option id py_iter].
  by rewrite (py_names_named _ _ Hn).
Qed.

(** X3. On a response with status 200 whose body is an object without
    ['models'], [list_available_models] returns the empty list. *)
Theorem list_available_models_without_models_key self st r body :
  requests_get w (length (trace st)) (api_url self +:+ "/tags") None = HttpResponse r ->
  status_code r = 200 ->
  json r = JsonValue (JObj body) ->
  assoc_lookup "models" body = None ->
  list_available_models w self st
  = (Val [], push (EvHttpGet (api_url self +:+ "/tags") None (HttpResponse r)) st).
Proof.
  intros Hout Hs Hj Hm.
  rewrite (list_available_models_200 _ _ _ Hout Hs), Hj. cbn [py_get].
  by rewrite Hm.
Qed.

(** X4. When the catalog is a list of objects and one of them has no
    ['name'], [list_available_models] raises [KeyError('name')]: the
    handler is for [RequestException] only.  The exception passes through
    [pull_model_if_needed], for every model, before any download. *)
Theorem catalog_entry_without_name_raises self st r body models :
  requests_get w (length (trace st)) (api_url self +:+ "/tags") None = HttpResponse r ->
  status_code r = 200 ->
  json r = JsonValue (JObj body) ->
  assoc_lookup "models" body = Some (JArr models) ->
  Forall is_object models ->
  Exists lacks_name models ->
  let st1 := push (EvHttpGet (api_url self +:+ "/tags") None (HttpResponse r)) st in
  list_available_models w self st = (Raise (mkExc KeyError "'name'"), st1)
  /\ forall model_name,
       pull_model_if_needed w self model_name st
       = (Raise (mkExc KeyError "'name'"), st1).
Proof.
  intros Hout Hs Hj Hm Hobj Hex. cbv zeta.
  assert (list_available_models w self st
          = (Raise (mkExc KeyError "'name'"),
             push (EvHttpGet (api_url self +:+ "/tags") None (HttpResponse r)) st))
    as Hl.
  { rewrite (list_available_models_200 _ _ _ Hout Hs), Hj. cbn [py_get].
    rewrite Hm. cbn [default from_option id py_iter].
    by rewrite (py_names_lacks _ Hobj Hex). }
  split; [exact Hl|]. intros model_name.
  unfold pull_model_if_needed. by rewrite bind_run, check_model_availability_run, Hl.
Qed.

(** X5. When ['models'] holds [null], a boolean or a number,
    [list_available_models] raises the [TypeError] of the iteration. *)
Theorem list_available_models_models_not_iterable self st r body v :
  requests_get w (length (trace st)) (api_url self +:+ "/tags") None = HttpResponse r ->
  status_code r = 200 ->
  json r = JsonValue (JObj body) ->
  assoc_lookup "models" body = Some v ->
  match v with JNull | JBool _ | JNum _ => True | _ => False end ->
  list_available_models w self st
  = (Raise (mkExc TypeError "object is not iterable"),
     push (EvHttpGet (api_url self +:+ "/tags") None (HttpResponse r)) st).
Proof.
  intros Hout Hs Hj Hm Hv.
  rewrite (list_available_models_200 _ _ _ Hout Hs), Hj. cbn [py_get].
  rewrite Hm. cbn [default from_option id].
  destruct v; try contradiction; reflexivity.
Qed.

(** X6. When [response.json()] raises on a response with status 200, the
    catalog is empty if the exception is a [RequestException]; any other
    exception leaves [list_available_models]. *)
Theorem list_available_models_json_raises self st r e :
  requests_get w (length (trace st)) (api_url self +:+ "/tags") None = HttpResponse r ->
  status_code r = 200 ->
  json r = JsonRaises e ->
  list_available_models w self st
  = (if is_RequestException e then Val [] else Raise e,
     push (EvHttpGet (api_url self +:+ "/tags") None (HttpResponse r)) st).
Proof.
  intros Hout Hs Hj. by rewrite (list_available_models_200 _ _ _ Hout Hs), Hj.
Qed.

(** X7. With a catalog of strings, [pull_model_if_needed] starts a download
    exactly when no entry contains the model name; the download is then the
    single command [ollama pull <name>]. *)
Theorem pull_downloads_iff_no_entry_contains self model_name st entries st1 :
  list_available_models w self st = (Val (map JStr entries), st1) ->
  let ds := downloads (run_events (pull_model_if_needed w self model_name) st) in
  (ds = [] <-> exists entry pre post,
                 In entry entries /\ entry = pre +:+ model_name +:+ post)
  /\ (ds = [] \/ ds = [pull_argv model_name]).
Proof.
  intros Hl. cbv zeta.
  pose proof (list_available_models_state w self st) as Hst.
  rewrite Hl in Hst. cbn [snd] in Hst.
  rewrite <- existsb_str_in.
  assert (exists evs, snd (pull_model_if_needed w self model_name st) = push_all evs st
                      /\ downloads evs
                         = if existsb (str_in model_name) entries then []
                           else [pull_argv model_name]) as (evs & Hevs & Hd).
  { unfold pull_model_if_needed.
    rewrite bind_run, check_model_availability_run, Hl, py_any_in_strings.
    destruct (existsb (str_in model_name) entries).
    - subst st1. eexists [_]. split; reflexivity.
    - unfold try_except. rewrite bind_run, run_subprocess_run. cbv zeta. subst st1.
      match goal with |- context [push ?ev (push ?ev0 st)] =>
        exists [ev0; ev]; split; [|reflexivity];
        change (push ev (push ev0 st)) with (push_all [ev] (push_all [ev0] st));
        rewrite push_all_app
      end.
      match goal with |- context [subprocess_run ?a ?b ?c ?d ?e ?f] =>
        destruct (subprocess_run a b c d e f) as [res|e']
      end.
      + destruct (returncode res =? 0); reflexivity.
      + cbn. destruct (is_TimeoutExpired e'); reflexivity. }
  rewrite (run_events_of_push_all _ _ _ Hevs), Hd.
  destruct (existsb (str_in model_name) entries);
    (split; [split; intros; (reflexivity || discriminate) | auto]).
Qed.

(** X8. For a manager built by [__init__], the liveness probe and the
    catalog query are one request each to the same address,
    [<base_url>/api/tags]; the probe has a timeout of 5 seconds and the
    catalog query has none. *)
Theorem probe_and_catalog_share_endpoint base st :
  let mgr := OllamaManager_init base in
  let url := base +:+ "/api/tags" in
  run_events (check_ollama_status w mgr) st
    = [EvHttpGet url (Some 5) (requests_get w (length (trace st)) url (Some 5))]
  /\ run_events (list_available_models w mgr) st
    = [EvHttpGet url None (requests_get w (length (trace st)) url None)].
Proof.
  cbv zeta. split; apply run_events_of_push_all.
  - rewrite check_ollama_status_run. reflexivity.
  - rewrite list_available_models_state. cbn [OllamaManager_init api_url].
    by rewrite string_append_assoc.
Qed.

End CatalogQuery.

(** ** The connection registry *)

Lemma assoc_lookup_not_in {V} key (items : list (string * V)) :
  ~ In key (map fst items) -> assoc_lookup key items = None.
Proof.
  induction items as [|[k v] items IH]; [reflexivity|].
  cbn [map fst In assoc_lookup]. intros Hn.
  destruct (String.eqb_spec key k) as [->|Hne]; [tauto|].
  apply IH. tauto.
Qed.

(** With distinct keys, the registry holds the connection of each item
    under its key, and what it held before under the other keys. *)
Lemma register_lookup items m key :
  NoDup (map fst items) ->
  register items m !! key =
  match assoc_lookup key items with
  | Some config => Some (llm_of config)
  | None => m !! key
  end.
Proof.
  revert m. induction items as [|[k c] items IH]; intros m Hnd; [reflexivity|].
  cbn [map fst] in Hnd. apply NoDup_cons in Hnd as [Hk Hnd].
  change (register ((k, c) :: items) m)
    with (register items (<[k := llm_of c]> m)).
  rewrite (IH _ Hnd). cbn [assoc_lookup].
  destruct (String.eqb_spec key k) as [->|Hne].
  - rewrite assoc_lookup_not_in; [by rewrite lookup_insert_eq|].
    by rewrite <- list_elem_of_In.
  - destruct (assoc_lookup key items); [reflexivity|].
    by rewrite lookup_insert_ne.
Qed.

Lemma register_app pre post m :
  register (pre ++ post)%list m = register post (register pre m).
Proof. apply fold_left_app. Qed.

Lemma with_llms_with_llms m m' c : with_llms m' (with_llms m c) = with_llms m' c.
Proof. reflexivity. Qed.

Lemma with_llms_same c : with_llms (llms c) c = c.
Proof. by destruct c. Qed.

Lemma connected_state_nil st : connected_state [] (llms (crew_system st)) st = st.
Proof.
  destruct st as [t n c]. unfold connected_state. cbn.
  by rewrite app_nil_r, with_llms_same.
Qed.

Lemma connected_state_connected_state evs evs' m m' st :
  connected_state evs' m' (connected_state evs m st)
  = connected_state (evs ++ evs')%list m' st.
Proof. unfold connected_state. cbn. by rewrite app_assoc. Qed.

Section Connections.

Variable w : World.

Lemma new_LLM_run args st :
  new_LLM w args st =
  let out := LLM_new w (length (trace st)) args in
  (match out with
   | None => Val args
   | Some e => Raise e
   end, push (EvLLMNew args out) st).
Proof.
  unfold new_LLM, bind, now, log. cbn.
  destruct (LLM_new w (length (trace st)) args); reflexivity.
Qed.

(** One round of the loop of [_setup_llm_connections]. *)
Lemma connect_models_cons key config rest st :
  connect_models w ((key, config) :: rest) st =
  match LLM_new w (length (trace st)) (llm_of config) with
  | None =>
      connect_models w rest
        (connected_state [EvLLMNew (llm_of config) None]
           (<[key := llm_of config]> (llms (crew_system st))) st)
  | Some e =>
      (Raise e, push (EvLLMNew (llm_of config) (Some e)) st)
  end.
Proof.
  cbn [connect_models]. rewrite bind_run. unfold try_except.
  rewrite bind_run.
  change (new_LLM w _ st) with (new_LLM w (llm_of config) st).
  rewrite new_LLM_run. cbv zeta.
  destruct (LLM_new w (length (trace st)) (llm_of config)) as [e|]; reflexivity.
Qed.

Lemma connect_models_val items st u st' :
  connect_models w items st = (Val u, st') ->
  st' = connected_state (connection_events items)
          (register items (llms (crew_system st))) st.
Proof.
  revert st. induction items as [|[key config] items IH]; intros st.
  - cbn. intros [= _ <-]. symmetry. apply connected_state_nil.
  - rewrite connect_models_cons.
    destruct (LLM_new w (length (trace st)) (llm_of config)) as [e|]; [discriminate|].
    intros H. apply IH in H. rewrite H, connected_state_connected_state.
    reflexivity.
Qed.

Lemma connect_models_raise items st e st' :
  connect_models w items st = (Raise e, st') ->
  exists pre key config post,
    items = (pre ++ (key, config) :: post)%list
    /\ st' = connected_state
               (connection_events pre ++ [EvLLMNew (llm_of config) (Some e)])
               (register pre (llms (crew_system st))) st.
Proof.
  revert st. induction items as [|[key config] items IH]; intros st.
  - discriminate.
  - rewrite connect_models_cons.
    destruct (LLM_new w (length (trace st)) (llm_of config)) as [e'|].
    + intros [= <- <-]. exists [], key, config, items. split; [reflexivity|].
      unfold connected_state, push. cbn. by rewrite with_llms_same.
    + intros H. apply IH in H as (pre & k & c & post & -> & ->).
      exists ((key, config) :: pre), k, c, post. split; [reflexivity|].
      rewrite connected_state_connected_state. reflexivity.
Qed.

Lemma run_events_connected_state {A} (m : M A) st evs reg :
  snd (m st) = connected_state evs reg st -> run_events m st = evs.
Proof. intros H. unfold run_events. rewrite H. cbn. apply drop_app_length. Qed.

(** X9. When [_setup_llm_connections] returns, [LLM(...)] was constructed
    once for each configuration, in the order of [models_config]; [llms]
    holds under each configured key the connection of its configuration
    (model [ollama/<ollama_model>], the backend address, the configured
    temperature, 4096 tokens, top-p 0.9, no penalties), what it held under
    other keys is kept, and no other field of the instance has changed. *)
Theorem setup_llm_connections_registers st st' :
  _setup_llm_connections w st = (Val tt, st') ->
  NoDup (map fst (models_config (crew_system st))) ->
  (forall key,
     llms (crew_system st') !! key =
     match assoc_lookup key (models_config (crew_system st)) with
     | Some config => Some (llm_of config)
     | None => llms (crew_system st) !! key
     end)
  /\ run_events (_setup_llm_connections w) st
     = connection_events (models_config (crew_system st))
  /\ same_but_llms (crew_system st) (crew_system st').
Proof.
  unfold _setup_llm_connections at 1. rewrite bind_run. cbn [get_self].
  intros H Hnd. pose proof (connect_models_val _ _ _ _ H) as ->.
  split; [|split].
  - intros key. cbn. by apply register_lookup.
  - apply (run_events_connected_state _ _ _
             (register (models_config (crew_system st)) (llms (crew_system st)))).
    unfold _setup_llm_connections. rewrite bind_run. cbn [get_self].
    rewrite H. reflexivity.
  - reflexivity.
Qed.

(** X10. When [_setup_llm_connections] raises, the exception is the one an
    [LLM(...)] constructor raised, unchanged.  The configurations before the
    refused one have their connections in [llms]; those after it were not
    tried; no other field of the instance has changed. *)
Theorem setup_llm_connections_reraises st e st' :
  _setup_llm_connections w st = (Raise e, st') ->
  exists pre key config post,
    models_config (crew_system st) = (pre ++ (key, config) :: post)%list
    /\ run_events (_setup_llm_connections w) st
       = (connection_events pre ++ [EvLLMNew (llm_of config) (Some e)])%list
    /\ llms (crew_system st') = register pre (llms (crew_system st))
    /\ same_but_llms (crew_system st) (crew_system st').
Proof.
  unfold _setup_llm_connections at 1. rewrite bind_run. cbn [get_self].
  intros H. destruct (connect_models_raise _ _ _ _ H) as (pre & key & config & post & Hi & ->).
  exists pre, key, config, post. split; [exact Hi|]. split; [|split; reflexivity].
  apply (run_events_connected_state _ _ _ (register pre (llms (crew_system st)))).
  unfold _setup_llm_connections. rewrite bind_run. cbn [get_self].
  rewrite H. reflexivity.
Qed.

End Connections.

(** ** Initialization as a whole *)

Lemma push_all_connected_state evs st :
  push_all evs st = connected_state evs (llms (crew_system st)) st.
Proof. unfold push_all, connected_state. by rewrite with_llms_same. Qed.

Lemma downloads_app evs1 evs2 :
  downloads (evs1 ++ evs2)%list = (downloads evs1 ++ downloads evs2)%list.
Proof. apply omap_app. Qed.

Lemma downloads_connection_events items : downloads (connection_events items) = [].
Proof. induction items as [|kv items IH]; [reflexivity | exact IH]. Qed.

Lemma no_connection_false_app evs ev :
  is_EvLLMNew ev = true -> no_connection (evs ++ [ev])%list = false.
Proof.
  intros H. rewrite no_connection_app. cbn. rewrite H. cbn.
  apply andb_false_r.
Qed.

Section Initialization.

Variable w : World.

Lemma list_available_models_raise self st e st' :
  list_available_models w self st = (Raise e, st') -> is_RequestException e = false.
Proof.
  destruct (requests_get w (length (trace st)) (api_url self +:+ "/tags") None)
    as [r|msg|cls msg] eqn:Hout.
  - destruct (Z.eq_dec (status_code r) 200) as [Hs|Hs].
    + rewrite (list_available_models_200 _ _ _ _ Hout Hs).
      destruct (json r) as [j|e'].
      * destruct (py_get j "models" (JArr [])) as [models|e'] eqn:Eg.
        -- destruct (py_iter models) as [items|e'] eqn:Ei.
           ++ intros [= H _]. by eapply py_names_raise.
           ++ intros [= <- _].
              destruct models; cbn in Ei; try discriminate; injection Ei as <-; reflexivity.
        -- intros [= <- _].
           destruct j; cbn in Eg; try discriminate; injection Eg as <-; reflexivity.
      * destruct (is_RequestException e') eqn:Er; [discriminate|].
        intros [= <- _]. exact Er.
    + unfold list_available_models, try_except.
      rewrite bind_run, http_get_run. cbv zeta. rewrite Hout.
      apply Z.eqb_neq in Hs. rewrite Hs. discriminate.
  - unfold list_available_models, try_except.
    rewrite bind_run, http_get_run. cbv zeta. rewrite Hout. discriminate.
  - unfold list_available_models, try_except.
    rewrite bind_run, http_get_run. cbv zeta. rewrite Hout.
    intros [= <- _]. reflexivity.
Qed.

(** What leaves [pull_model_if_needed] comes from the catalog query: the
    exceptions of the download are all handled. *)
Lemma pull_model_if_needed_raise self model_name st e st' :
  pull_model_if_needed w self model_name st = (Raise e, st') ->
  is_RequestException e = false.
Proof.
  unfold pull_model_if_needed. rewrite bind_run, check_model_availability_run.
  destruct (list_available_models w self st) as [[models|e'] st1] eqn:El.
  - destruct (py_any_in model_name models) as [[|]|e'] eqn:Ea.
    + discriminate.
    + unfold try_except. rewrite bind_run, run_subprocess_run. cbv zeta.
      destruct (subprocess_run w _ _ _ _ _) as [res|e'].
      * destruct (returncode res =? 0); discriminate.
      * cbn. destruct (is_TimeoutExpired e'); discriminate.
    + intros [= <- _]. apply py_any_in_raise in Ea.
      unfold is_RequestException. by rewrite Ea.
  - intros [= <- _]. by eapply list_available_models_raise.
Qed.

Lemma pull_every_raise self names st e st' :
  pull_every w self names st = (Raise e, st') -> is_RequestException e = false.
Proof.
  revert st. induction names as [|n names IH]; intros st; [discriminate|].
  cbn [pull_every]. rewrite bind_run.
  destruct (pull_model_if_needed w self n st) as [[ok|e'] st1] eqn:Ep.
  - rewrite bind_run.
    destruct (pull_every w self names st1) as [[oks|e'] st2] eqn:Er; [discriminate|].
    intros [= <- <-]. by eapply IH.
  - intros [= <- _]. by eapply pull_model_if_needed_raise.
Qed.

(** When [pull_model_if_needed] raises, its only event is the catalog
    query: no download was started. *)
Lemma pull_model_if_needed_raise_state self model_name st e st' :
  pull_model_if_needed w self model_name st = (Raise e, st') ->
  st' = push (EvHttpGet (api_url self +:+ "/tags") None
                (requests_get w (length (trace st)) (api_url self +:+ "/tags") None))
             st.
Proof.
  unfold pull_model_if_needed. rewrite bind_run.
  pose proof (check_model_availability_state w self model_name st) as Hc.
  destruct (check_model_availability w self model_name st) as [[[|]|e'] st1];
    cbn [snd] in Hc.
  - discriminate.
  - unfold try_except. rewrite bind_run, run_subprocess_run. cbv zeta.
    destruct (subprocess_run w _ _ _ _ _) as [res|e'].
    + destruct (returncode res =? 0); discriminate.
    + cbn. destruct (is_TimeoutExpired e'); discriminate.
  - intros [= _ <-]. exact Hc.
Qed.

Lemma pull_every_raise_last self names st e st' :
  pull_every w self names st = (Raise e, st') ->
  exists evs0 out,
    st' = push_all (evs0 ++ [EvHttpGet (api_url self +:+ "/tags") None out]) st.
Proof.
  revert st. induction names as [|n names IH]; intros st; [discriminate|].
  cbn [pull_every]. rewrite bind_run.
  destruct (pull_model_if_needed_frame w self n st) as (evs1 & H1 & _).
  destruct (pull_model_if_needed w self n st) as [[ok|e'] st1] eqn:Ep;
    cbn [snd] in H1.
  - rewrite bind_run.
    destruct (pull_every w self names st1) as [[oks|e'] st2] eqn:Er; [discriminate|].
    intros [= <- <-]. destruct (IH st1 Er) as (evs0 & out & ->).
    exists (evs1 ++ evs0)%list, out. subst st1.
    by rewrite push_all_app, app_assoc.
  - intros [= _ <-]. apply pull_model_if_needed_raise_state in Ep.
    eexists [], _. rewrite Ep. apply push_is_push_all.
Qed.

(** One call of [pull_model_if_needed] starts at most the download of its
    model. *)
Lemma pull_model_if_needed_downloads self model_name st :
  exists evs, snd (pull_model_if_needed w self model_name st) = push_all evs st
              /\ no_connection evs = true
              /\ downloads evs `sublist_of` [pull_argv model_name].
Proof.
  unfold pull_model_if_needed. rewrite bind_run.
  pose proof (check_model_availability_state w self model_name st) as Hc.
  destruct (check_model_availability w self model_name st) as [[[|]|e] st1];
    cbn [snd] in Hc; subst st1.
  - eexists [_]. repeat split. apply sublist_nil_l.
  - unfold try_except. rewrite bind_run, run_subprocess_run. cbv zeta.
    match goal with |- context [push ?ev (push ?ev0 st)] =>
      exists [ev0; ev]; split; [|split; [reflexivity | reflexivity]];
      change (push ev (push ev0 st)) with (push_all [ev] (push_all [ev0] st));
      rewrite push_all_app
    end.
    match goal with |- context [subprocess_run ?a ?b ?c ?d ?e ?f] =>
      destruct (subprocess_run a b c d e f) as [r|e']
    end.
    + destruct (returncode r =? 0); reflexivity.
    + cbn. destruct (is_TimeoutExpired e'); reflexivity.
  - eexists [_]. repeat split. apply sublist_nil_l.
Qed.

Lemma pull_every_downloads self names st :
  exists evs, snd (pull_every w self names st) = push_all evs st
              /\ no_connection evs = true
              /\ downloads evs `sublist_of` map pull_argv names.
Proof.
  revert st. induction names as [|n names IH]; intros st.
  - exists []. split; [symmetry; apply push_all_nil|]. split; [reflexivity|].
    apply sublist_nil_l.
  - cbn [pull_every]. rewrite bind_run.
    destruct (pull_model_if_needed_downloads self n st) as (evs1 & H1 & N1 & D1).
    destruct (pull_model_if_needed w self n st) as [[ok|e] st1]; cbn [snd] in H1.
    + rewrite bind_run. destruct (IH st1) as (evs2 & H2 & N2 & D2).
      exists (evs1 ++ evs2)%list.
      rewrite no_connection_app, N1, N2, <- push_all_app, <- H1, downloads_app.
      split; [|split; [reflexivity|]].
      * destruct (pull_every w self names st1) as [[oks|e] st2]; exact H2.
      * change (map pull_argv (n :: names))
          with ([pull_argv n] ++ map pull_argv names)%list.
        by apply sublist_app.
    + exists evs1. split; [exact H1|]. split; [exact N1|].
      change (map pull_argv (n :: names))
        with ([pull_argv n] ++ map pull_argv names)%list.
      by apply sublist_inserts_r.
Qed.

(** The ways [initialize_system] ends, with the state of each. *)
Lemma initialize_system_ends st :
  let self := crew_system st in
  let mgr := ollama_manager self in
  let url := base_url mgr +:+ "/api/tags" in
  let probe := EvHttpGet url (Some 5) (requests_get w (length (trace st)) url (Some 5)) in
  (fst (check_ollama_status w mgr st) = Val false
   /\ initialize_system w st = (Val false, push probe st))
  \/ (exists cls msg,
        requests_get w (length (trace st)) url (Some 5) = HttpRaisesOther cls msg
        /\ initialize_system w st
           = (Raise (mkExc (OtherException cls) msg), push probe st))
  \/ (fst (check_ollama_status w mgr st) = Val true
      /\ exists evs,
           snd (pull_every w mgr (configured_models self) (push probe st))
             = push_all evs (push probe st)
           /\ no_connection evs = true
           /\ downloads evs `sublist_of` map pull_argv (configured_models self)
           /\ match pull_every w mgr (configured_models self) (push probe st) with
              | (Raise e, st2) =>
                  is_RequestException e = false
                  /\ initialize_system w st = (Raise e, st2)
                  /\ exists evs0 out,
                       evs = (evs0 ++ [EvHttpGet (api_url mgr +:+ "/tags") None out])%list
              | (Val oks, st2) =>
                  if forallb id oks then
                    (initialize_system w st
                       = (Val true,
                          connected_state (connection_events (models_config self))
                            (register (models_config self) (llms self)) st2))
                    \/ (exists e pre key config post,
                          models_config self = (pre ++ (key, config) :: post)%list
                          /\ initialize_system w st
                             = (Raise e,
                                connected_state
                                  (connection_events pre
                                   ++ [EvLLMNew (llm_of config) (Some e)])
                                  (register pre (llms self)) st2))
                  else initialize_system w st = (Val false, st2)
              end).
Proof.
  cbv zeta. rewrite initialize_system_run. cbv zeta.
  rewrite check_ollama_status_run. cbv zeta. cbn [fst snd].
  set (url := base_url (ollama_manager (crew_system st)) +:+ "/api/tags").
  destruct (requests_get w (length (trace st)) url (Some 5)) as [r|msg|cls msg] eqn:Hout;
    [|left; split; reflexivity
     |right; left; exists cls, msg; split; reflexivity].
  set (probe := EvHttpGet _ _ _).
  destruct (status_code r =? 200); [right; right | left; split; reflexivity].
  split; [reflexivity|].
  destruct (pull_every_downloads (ollama_manager (crew_system st))
              (configured_models (crew_system st)) (push probe st))
    as (evs & Hst & Hn & Hd).
  exists evs. split; [exact Hst|]. split; [exact Hn|]. split; [exact Hd|].
  destruct (pull_every w (ollama_manager (crew_system st))
              (configured_models (crew_system st)) (push probe st))
    as [[oks|e] st2] eqn:Ep.
  - cbn [snd] in Hst.
    destruct (forallb id oks); [|reflexivity].
    assert (crew_system st2 = crew_system st) as Hc by (by rewrite Hst).
    unfold _setup_llm_connections. rewrite bind_run. cbn [get_self]. rewrite Hc.
    destruct (connect_models w (models_config (crew_system st)) st2)
      as [[[]|e] st3] eqn:Ec.
    + left. apply connect_models_val in Ec. by rewrite Ec, Hc.
    + right. apply connect_models_raise in Ec as (pre & key & config & post & Hi & ->).
      exists e, pre, key, config, post. by rewrite Hc.
  - split; [by eapply pull_every_raise|]. split; [reflexivity|].
    cbn [snd] in Hst.
    destruct (pull_every_raise_last _ _ _ _ _ Ep) as (evs0 & out & Hlast).
    exists evs0, out. rewrite Hlast in Hst.
    assert (trace (push_all (evs0 ++ [EvHttpGet (api_url (ollama_manager (crew_system st))
                                         +:+ "/tags") None out]) (push probe st))
            = trace (push_all evs (push probe st))) as Ht by (by rewrite Hst).
    cbn [push_all trace] in Ht. by apply app_inv_head in Ht.
Qed.

(** Every end of [initialize_system] is the start state with more events
    and, maybe, another registry. *)
Lemma initialize_system_shape st :
  exists evs m,
    snd (initialize_system w st) = connected_state evs m st
    /\ downloads evs
       `sublist_of` map pull_argv (configured_models (crew_system st)).
Proof.
  destruct (initialize_system_ends st)
    as [[_ H] | [(cls & msg & _ & H) | (_ & evs & Hst & _ & Hd & H)]].
  - rewrite H. cbn [snd]. eexists [_], _.
    rewrite push_is_push_all, push_all_connected_state.
    split; [reflexivity | apply sublist_nil_l].
  - rewrite H. cbn [snd]. eexists [_], _.
    rewrite push_is_push_all, push_all_connected_state.
    split; [reflexivity | apply sublist_nil_l].
  - rewrite push_is_push_all, push_all_app in Hst.
    destruct (pull_every w _ _ _) as [[oks|e] st2]; cbn [snd] in Hst.
    + destruct (forallb id oks).
      * destruct H as [H | (e & pre & key & config & post & _ & H)];
          rewrite H; cbn [snd]; subst st2;
          rewrite push_all_connected_state, connected_state_connected_state;
          eexists _, _; (split; [reflexivity|]);
          rewrite !downloads_app, ?downloads_connection_events, app_nil_r;
          exact Hd.
      * rewrite H. cbn [snd]. subst st2. rewrite push_all_connected_state.
        eexists _, _. split; [reflexivity|]. rewrite downloads_app. exact Hd.
    + destruct H as (_ & H & _). rewrite H. cbn [snd]. subst st2.
      rewrite push_all_connected_state.
      eexists _, _. split; [reflexivity|]. rewrite downloads_app. exact Hd.
Qed.

Lemma initialize_system_true_inv st :
  fst (initialize_system w st) = Val true ->
  let self := crew_system st in
  let mgr := ollama_manager self in
  fst (check_ollama_status w mgr st) = Val true
  /\ exists oks st2,
       pull_every w mgr (configured_models self) (snd (check_ollama_status w mgr st))
         = (Val oks, st2)
       /\ forallb id oks = true
       /\ llms (crew_system (snd (initialize_system w st)))
          = register (models_config self) (llms self).
Proof.
  cbv zeta. intros Ht.
  destruct (initialize_system_ends st)
    as [[_ H] | [(cls & msg & _ & H) | (Hs & evs & _ & _ & _ & H)]].
  - rewrite H in Ht. discriminate.
  - rewrite H in Ht. discriminate.
  - split; [exact Hs|]. rewrite check_ollama_status_run. cbv zeta. cbn [snd].
    destruct (pull_every w _ _ _) as [[oks|e] st2].
    + exists oks, st2. split; [reflexivity|].
      destruct (forallb id oks).
      * split; [reflexivity|].
        destruct H as [H | (e & pre & key & config & post & _ & H)];
          rewrite H in Ht |- *; [reflexivity | discriminate].
      * rewrite H in Ht. discriminate.
    + destruct H as (_ & H & _). rewrite H in Ht. discriminate.
Qed.

(** X11. [initialize_system] returns true only when the health check
    returned true, [pull_model_if_needed] returned true for every
    configured model, and every connection was made: [llms] then holds
    under each configured key the connection of its configuration. *)
Theorem initialize_system_true st :
  fst (initialize_system w st) = Val true ->
  NoDup (map fst (models_config (crew_system st))) ->
  let self := crew_system st in
  let mgr := ollama_manager self in
  fst (check_ollama_status w mgr st) = Val true
  /\ (exists oks st2,
        pull_every w mgr (configured_models self) (snd (check_ollama_status w mgr st))
          = (Val oks, st2)
        /\ forallb id oks = true)
  /\ forall key,
       llms (crew_system (snd (initialize_system w st))) !! key =
       match assoc_lookup key (models_config self) with
       | Some config => Some (llm_of config)
       | None => llms self !! key
       end.
Proof.
  intros Ht Hnd. cbv zeta.
  destruct (initialize_system_true_inv st Ht) as (Hs & oks & st2 & Hp & Hall & Hl).
  split; [exact Hs|]. split; [by exists oks, st2|].
  intros key. rewrite Hl. by apply register_lookup.
Qed.

Lemma setup_model_configurations_keys : NoDup (map fst _setup_model_configurations).
Proof.
  cbn. repeat (apply NoDup_cons; split;
               [rewrite ?elem_of_cons, elem_of_nil; intros H;
                repeat destruct H as [H|H]; discriminate || exact H|]).
  apply NoDup_nil_2.
Qed.

Lemma initialize_system_connects_roles st :
  models_config (crew_system st) = _setup_model_configurations ->
  fst (initialize_system w st) = Val true ->
  connected (crew_system (snd (initialize_system w st))).
Proof.
  intros Hcfg Ht.
  destruct (initialize_system_true_inv st Ht) as (_ & _ & _ & _ & _ & Hl).
  unfold connected. rewrite Hl, Hcfg.
  rewrite !(register_lookup _ _ _ setup_model_configurations_keys).
  cbn. eauto.
Qed.

Lemma solve_each_connected problems st :
  connected (crew_system st) ->
  exists answers st',
    solve_each w problems st = (Val answers, st')
    /\ length answers = length problems
    /\ connected (crew_system st').
Proof.
  revert st. induction problems as [|problem problems IH]; intros st Hc.
  - exists [], st. auto.
  - cbn [solve_each]. rewrite bind_run.
    pose proof (proj2 (solve_problem_returns_iff w problem st) Hc) as Hr.
    destruct (solve_problem_frame w problem st) as [Hself _].
    destruct (solve_problem w problem st) as [[answer|e] st1];
      cbn [fst snd returns] in *; [|contradiction].
    rewrite <- Hself in Hc. destruct (IH st1 Hc) as (answers & st' & H & Hlen & Hc').
    exists (answer :: answers), st'. rewrite bind_run, H.
    split; [reflexivity|]. split; [cbn; by rewrite Hlen | exact Hc'].
Qed.

(** X12. After [initialize_system] has returned true on an instance with
    the configurations of [_setup_model_configurations], every call of
    [solve_problem] returns a string: any number of calls, one after the
    other, on any problems, give as many answers, and none raises. *)
Theorem initialize_then_solve st problems :
  models_config (crew_system st) = _setup_model_configurations ->
  fst (initialize_system w st) = Val true ->
  exists answers st',
    solve_each w problems (snd (initialize_system w st)) = (Val answers, st')
    /\ length answers = length problems.
Proof.
  intros Hcfg Ht.
  destruct (solve_each_connected problems _ (initialize_system_connects_roles st Hcfg Ht))
    as (answers & st' & H & Hlen & _).
  by exists answers, st'.
Qed.


(** X14. When the probe fails at the network level or comes back with a
    status other than 200, [initialize_system] returns false after the
    probe alone: no catalog query, no download and no connection. *)
Theorem initialize_system_backend_down st :
  let url := base_url (ollama_manager (crew_system st)) +:+ "/api/tags" in
  let out := requests_get w (length (trace st)) url (Some 5) in
  match out with
  | HttpResponse r => status_code r <> 200
  | HttpRaises _ => True
  | HttpRaisesOther _ _ => False
  end ->
  initialize_system w st = (Val false, push (EvHttpGet url (Some 5) out) st).
Proof.
  cbv zeta. intros Hout.
  destruct (initialize_system_ends st)
    as [[_ H] | [(cls & msg & Hp & _) | (Hs & _)]]; [exact H| |].
  - by rewrite Hp in Hout.
  - rewrite check_ollama_status_run in Hs. cbv zeta in Hs. cbn [fst] in Hs.
    destruct (requests_get w _ _ _) as [r|msg|cls msg]; [|discriminate|discriminate].
    apply Z.eqb_neq in Hout. rewrite Hout in Hs. discriminate.
Qed.

(** X15. However [initialize_system] ends, by returning or by raising, the
    only field of the instance it may have changed is [llms]; it creates no
    object. *)
Theorem initialize_system_frame st :
  same_but_llms (crew_system st) (crew_system (snd (initialize_system w st)))
  /\ next_id (snd (initialize_system w st)) = next_id st.
Proof.
  destruct (initialize_system_shape st) as (evs & m & -> & _).
  split; reflexivity.
Qed.

(** X16. The downloads of a call of [initialize_system] are commands
    [ollama pull <model>] for configured models, in the order of the
    configuration and at most one for each: no other model is pulled and no
    download is tried twice, however the call ends. *)
Theorem initialize_system_downloads st :
  downloads (run_events (initialize_system w) st)
  `sublist_of` map pull_argv (configured_models (crew_system st)).
Proof.
  destruct (initialize_system_shape st) as (evs & m & H & Hd).
  by rewrite (run_events_connected_state _ _ _ _ H).
Qed.

End Initialization.

(** ** The stages of a run *)

Section Stages.

Variable w : World.

(** X18. A call of [solve_problem] touches the outside only through the
    crew: its events are the kickoff and at most three stage executions,
    with no HTTP request, no download and no [LLM(...)] construction. *)
Theorem solve_problem_only_runs_the_crew problem st :
  forallb is_pipeline_event (run_events (solve_problem w problem) st) = true
  /\ (length (run_events (solve_problem w problem) st) <= 4)%nat.
Proof.
  destruct (solve_problem_cases w problem st)
    as [(_ & e & k & H & _) | (_ & la & lr & ls & stages & s & _ & H & Hrun)].
  - rewrite (run_events_raise _ _ _ _ H). split; [reflexivity | cbn; lia].
  - rewrite (run_events_stages _ _ _ _ _ H).
    destruct (pipeline_run_events _ _ _ _ _ _ Hrun) as [Hf Hl].
    split; [exact Hf | cbn in *; lia].
Qed.

End Stages.

(** X17. In every run what the research stage is handed (the texts of its
    agent and of its task, and its context) is made of the plan of the
    analysis stage and of fixed texts: the problem reaches the research
    stage through the plan only.  So two runs whose analysis stages gave
    the same plans hand the same input to their research stages. *)
Theorem research_input_depends_on_plan_only w1 w2 problem1 problem2 st1 st2 :
  let evs1 := run_events (solve_problem w1 problem1) st1 in
  let evs2 := run_events (solve_problem w2 problem2) st2 in
  research_inputs evs1 = map research_input_of (analysis_plans evs1)
  /\ (analysis_plans evs1 = analysis_plans evs2 ->
      research_inputs evs1 = research_inputs evs2).
Proof.
  cbv zeta. split; [apply research_inputs_of_run|].
  intros H. rewrite !research_inputs_of_run, H. reflexivity.
Qed.

(** ** Examples of the further properties *)

Lemma list_available_models_degrades_witness :
  fst (list_available_models world_unreachable the_manager initial_state) = Val []
  /\ fst (check_model_availability world_unhealthy the_manager "gemma3:1b"
            initial_state) = Val false.
Proof.
  split.
  - destruct (list_available_models_degrades world_unreachable the_manager
                initial_state I) as [H _].
    rewrite H. reflexivity.
  - assert (500 <> 200) as Hne by discriminate.
    destruct (list_available_models_degrades world_unhealthy the_manager
                initial_state Hne) as [_ H].
    rewrite H. reflexivity.
Defined.

Lemma list_available_models_names_witness :
  fst (list_available_models
         (world_answering {| status_code := 200; json := JsonValue catalog_with_sizes |})
         the_manager initial_state)
  = Val [JStr "qwen3:1.7b"; JStr "gemma3:1b"].
Proof.
  erewrite list_available_models_names; [reflexivity | reflexivity | reflexivity
                                        | reflexivity | reflexivity |].
  repeat constructor; eexists; split; reflexivity.
Defined.

Lemma list_available_models_without_models_key_witness :
  fst (list_available_models
         (world_answering {| status_code := 200; json := JsonValue (JObj []) |})
         the_manager initial_state)
  = Val [].
Proof.
  erewrite list_available_models_without_models_key; reflexivity.
Defined.

Lemma catalog_entry_without_name_raises_witness :
  fst (pull_model_if_needed world_malformed_catalog the_manager "gemma3:1b"
         initial_state)
  = Raise (mkExc KeyError "'name'").
Proof.
  destruct (catalog_entry_without_name_raises world_malformed_catalog the_manager
              initial_state _ _ [JObj []] eq_refl eq_refl eq_refl eq_refl)
    as [_ H].
  - repeat constructor. by exists [].
  - constructor. by exists [].
  - rewrite H. reflexivity.
Defined.

Lemma list_available_models_models_not_iterable_witness :
  fst (list_available_models
         (world_answering {| status_code := 200;
                             json := JsonValue (JObj [("models", JNull)]) |})
         the_manager initial_state)
  = Raise (mkExc TypeError "object is not iterable").
Proof.
  erewrite list_available_models_models_not_iterable;
    [reflexivity | reflexivity | reflexivity | reflexivity | reflexivity | exact I].
Defined.

Lemma list_available_models_json_raises_witness :
  fst (list_available_models world_bad_json the_manager initial_state)
  = Raise (mkExc (OtherException "ValueError")
             "Expecting value: line 1 column 1 (char 0)").
Proof.
  rewrite (list_available_models_json_raises world_bad_json the_manager initial_state
             _ _ eq_refl eq_refl eq_refl).
  reflexivity.
Defined.

(** ["qwen3:1"] is not installed, but ["qwen3:1.7b"] is and contains it: no
    download is started. *)
Lemma pull_downloads_iff_no_entry_contains_witness :
  downloads (run_events (pull_model_if_needed (world_with ["qwen3:1.7b"] (fun _ => 0))
                           the_manager "qwen3:1") initial_state) = [].
Proof.
  destruct (pull_downloads_iff_no_entry_contains
              (world_with ["qwen3:1.7b"] (fun _ => 0)) the_manager "qwen3:1"
              initial_state ["qwen3:1.7b"] _ eq_refl) as [H _].
  apply H. exists "qwen3:1.7b", EmptyString, ".7b". split; [by left | reflexivity].
Defined.

Lemma setup_llm_connections_registers_witness :
  llms (crew_system (snd (_setup_llm_connections (world_with all_models (fun _ => 0))
                            initial_state))) !! "researcher"
  = Some {| llm_model := "ollama/deepseek-r1:8b";
            llm_base_url := "http://localhost:11434";
            llm_temperature := 6 # 10;
            llm_max_tokens := 4096;
            llm_top_p := 9 # 10;
            llm_frequency_penalty := 0;
            llm_presence_penalty := 0 |}.
Proof.
  destruct (setup_llm_connections_registers (world_with all_models (fun _ => 0))
              initial_state _ eq_refl setup_model_configurations_keys) as [H _].
  rewrite H. reflexivity.
Defined.

(** The researcher's connection is refused: the analyst is registered, the
    synthesizer was not tried. *)
Lemma setup_llm_connections_reraises_witness :
  exists pre key config post,
    _setup_model_configurations = (pre ++ (key, config) :: post)%list
    /\ run_events (_setup_llm_connections world_researcher_refused) initial_state
       = (connection_events pre
          ++ [EvLLMNew (llm_of config) (Some connection_refused)])%list
    /\ llms (crew_system (snd (_setup_llm_connections world_researcher_refused
                                 initial_state)))
       = register pre ∅
    /\ same_but_llms MultiModelCrew_init
         (crew_system (snd (_setup_llm_connections world_researcher_refused
                              initial_state))).
Proof.
  apply (setup_llm_connections_reraises world_researcher_refused initial_state
           connection_refused).
  reflexivity.
Defined.

Example researcher_refused_registry :
  let st' := snd (_setup_llm_connections world_researcher_refused initial_state) in
  is_Some (llms (crew_system st') !! "analyst")
  /\ llms (crew_system st') !! "researcher" = None
  /\ llms (crew_system st') !! "synthesizer" = None.
Proof. repeat split; vm_compute; eauto. Qed.

Lemma initialize_system_true_witness :
  llms (crew_system ready_state) !! "analyst"
  = Some (llm_of {| name := "Qwen Analyst";
                    ollama_model := "qwen3:1.7b";
                    strength := ANALYTICAL;
                    role := "Problem Analyst";
                    description := "analytical thinking, problem decomposition, creating a ToDo list";
                    temperature := 3 # 10;
                    context_window := 32768 |}).
Proof.
  destruct (initialize_system_true (world_with all_models (fun _ => 0)) initial_state)
    as (_ & _ & H).
  - vm_compute. reflexivity.
  - exact setup_model_configurations_keys.
  - unfold ready_state. rewrite H. reflexivity.
Defined.

Lemma initialize_then_solve_witness :
  exists answers st',
    solve_each (world_with all_models (fun _ => 0))
      ["What is 2+2?"; "What is 2+2?"; "What is 1+3?"] ready_state
    = (Val answers, st')
    /\ length answers = 3%nat.
Proof.
  apply (initialize_then_solve (world_with all_models (fun _ => 0)) initial_state).
  - reflexivity.
  - vm_compute. reflexivity.
Defined.


(** The address of the backend cannot be parsed: the exception of the probe
    leaves [initialize_system]. *)
Example initialize_system_bad_address :
  initialize_system world_bad_address bad_address_state
  = (Raise (mkExc (OtherException "LocationParseError")
              "Failed to parse: '.example.com', label empty or too long"),
     push (EvHttpGet "http://.example.com/api/tags" (Some 5) location_parse_error)
          bad_address_state).
Proof. vm_compute. reflexivity. Qed.

Lemma initialize_system_backend_down_witness :
  initialize_system world_unreachable initial_state
  = (Val false,
     push (EvHttpGet "http://localhost:11434/api/tags" (Some 5)
             (HttpRaises "Connection refused")) initial_state).
Proof.
  apply (initialize_system_backend_down world_unreachable initial_state). exact I.
Defined.

(** Two runs on different problems whose analysis stages give the same
    plan: the research stages are handed the same input. *)
Lemma research_input_depends_on_plan_only_witness :
  research_inputs
    (run_events (solve_problem (stage_world (ExecOutput reason_plan) (ExecOutput "4")
                                  (ExecOutput "The answer is 4."))
                   "What is 2+2?") ready_state)
  = research_inputs
      (run_events (solve_problem (stage_world (ExecOutput reason_plan) (ExecOutput "7")
                                    (ExecOutput "Seven."))
                     "What is 3+4?") ready_state).
Proof.
  apply (proj2 (research_input_depends_on_plan_only _ _ _ _ _ _)).
  vm_compute. reflexivity.
Defined.

Example malformed_catalog_aborts_initialization :
  fst (initialize_system world_malformed_catalog initial_state)
  = Raise (mkExc KeyError "'name'").
Proof. vm_compute. reflexivity. Qed.

(** ** Provisioning and initialization, again *)

Section Again.

Variable w : World.

(** X19. A model whose exact name is in a catalog of strings is found
    available, and [pull_model_if_needed] returns true for it without
    starting a download. *)
Theorem installed_model_is_not_downloaded self model_name st entries st1 :
  list_available_models w self st = (Val (map JStr entries), st1) ->
  In model_name entries ->
  check_model_availability w self model_name st = (Val true, st1)
  /\ pull_model_if_needed w self model_name st = (Val true, st1).
Proof.
  intros Hl Hin.
  assert (check_model_availability w self model_name st = (Val true, st1)) as Hc.
  { rewrite check_model_availability_run, Hl, py_any_in_strings.
    assert (existsb (str_in model_name) entries = true) as ->; [|reflexivity].
    apply existsb_exists. exists model_name. split; [exact Hin | apply str_in_refl]. }
  split; [exact Hc|].
  unfold pull_model_if_needed. by rewrite bind_run, Hc.
Qed.

(** X20. Initializing twice gives the registry of initializing once: when
    [initialize_system] returns true and is called again and returns true
    again, [llms] is the same after the second call as after the first. *)
Theorem initialize_system_twice st :
  NoDup (map fst (models_config (crew_system st))) ->
  fst (initialize_system w st) = Val true ->
  fst (initialize_system w (snd (initialize_system w st))) = Val true ->
  llms (crew_system (snd (initialize_system w (snd (initialize_system w st)))))
  = llms (crew_system (snd (initialize_system w st))).
Proof.
  intros Hnd H1 H2.
  destruct (initialize_system_true_inv w _ H1) as (_ & _ & _ & _ & _ & Hl1).
  destruct (initialize_system_true_inv w _ H2) as (_ & _ & _ & _ & _ & Hl2).
  destruct (initialize_system_shape w st) as (evs & m & Hst & _).
  assert (models_config (crew_system (snd (initialize_system w st)))
          = models_config (crew_system st)) as Hcfg by (by rewrite Hst).
  rewrite Hl2, Hcfg, Hl1. apply map_eq. intros key.
  rewrite !(register_lookup _ _ _ Hnd).
  by destruct (assoc_lookup key (models_config (crew_system st))).
Qed.

End Again.

Lemma installed_model_is_not_downloaded_witness :
  pull_model_if_needed (world_with all_models (fun _ => 1)) the_manager "gemma3:1b"
    initial_state
  = (Val true,
     push (EvHttpGet "http://localhost:11434/api/tags" None (ok_response all_models))
       initial_state).
Proof.
  apply (installed_model_is_not_downloaded (world_with all_models (fun _ => 1))
           the_manager "gemma3:1b" initial_state all_models); [reflexivity|].
  right. right. by left.
Defined.

Lemma initialize_system_twice_witness :
  llms (crew_system (snd (initialize_system (world_with all_models (fun _ => 0))
                            ready_state)))
  = llms (crew_system ready_state).
Proof.
  apply (initialize_system_twice (world_with all_models (fun _ => 0)) initial_state).
  - exact setup_model_configurations_keys.
  - vm_compute. reflexivity.
  - vm_compute. reflexivity.
Defined.
